(** * Student Performance API: statistics engine and API glue

    A shallow embedding of [main.py] (the FastAPI service) and of the parts of
    [schemas.py] it uses.

    Numbers.  The statistics engine is embedded twice.  Most of the file
    works over exact rationals [Q]: that embedding keeps the order of every
    arithmetic operation of the source but not the binary64 rounding of each
    one, and it has no infinities or NaN; it carries the statements on
    guards, structure, order and bounds.  [Binary64] embeds [compute_stats]
    over binary64 floats, with the rounding of every operation; it carries
    the statements that fix the digits of a reported average or compare two
    means.  [round(x, 2)] is in both decimal rounding to the nearest
    hundredth, ties to even, on the exact value of its argument.  Value
    equality of rationals is [Qeq] ([==]).

    Errors.  Python exceptions are values of [exn]; code that may raise
    returns a [result].  [ZeroDivisionError] is raised by division exactly as
    in Python, so that a guard against it is something to be proved. *)

From Stdlib Require Import NArith ZArith QArith Qround Qabs List String Ascii Bool Lia Lqa.
From Stdlib Require Import Sorting.Sorted Sorting.Permutation.
From Stdlib Require Import Floats.

Set Warnings "-inexact-float".
Import ListNotations.

Local Open Scope string_scope.
Local Open Scope list_scope.
Local Open Scope Q_scope.

(** ** Exceptions and the error monad *)

Inductive exn : Type :=
| HTTPException (status_code : Z) (detail : string)
| ZeroDivisionError
| TypeError
| ValueError
| InvalidId
| PyMongoError.

Inductive result (A : Type) : Type :=
| Ok (a : A)
| Raise (e : exn).

Arguments Ok {A} a.
Arguments Raise {A} e.

Definition bind {A B : Type} (m : result A) (k : A -> result B) : result B :=
  match m with
  | Ok a => k a
  | Raise e => Raise e
  end.

Notation "x <- m ;; k" := (bind m (fun x => k))
  (at level 61, m at next level, right associativity).
Notation "' p <- m ;; k" := (bind m (fun x => match x with p => k end))
  (at level 61, p pattern, m at next level, right associativity).

(** [for a in xs: body], threading the loop's variables as a state. *)
Fixpoint for_each {S A : Type} (body : S -> A -> result S) (xs : list A) (st : S)
  : result S :=
  match xs with
  | [] => Ok st
  | x :: rest => st' <- body st x ;; for_each body rest st'
  end.

(** [{k: f(v) for k, v in d.items()}] over an insertion-ordered dict. *)
Fixpoint dict_comprehension {K V W : Type} (f : V -> result W) (items : list (K * V))
  : result (list (K * W)) :=
  match items with
  | [] => Ok []
  | (k, v) :: rest =>
      w <- f v ;;
      rest' <- dict_comprehension f rest ;;
      Ok ((k, w) :: rest')
  end.

(** ** Python numbers *)

Definition Qltb (x y : Q) : bool := negb (Qle_bool y x).

(** [a / b] on floats. *)
Definition py_truediv (a b : Q) : result Q :=
  if Qeq_bool b 0 then Raise ZeroDivisionError else Ok (a / b).

(** [x or d]: [x] when it is truthy (non-zero), else [d]. *)
Definition py_or (x d : Q) : Q :=
  if Qeq_bool x 0 then d else x.

(** [sum(v)]: starts from 0 and adds from the left. *)
Definition py_sum (v : list Q) : Q := fold_left Qplus v 0.

(** [len(v)] as the number it is used as in a division. *)
Definition len {A : Type} (v : list A) : Q := inject_Z (Z.of_nat (List.length v)).

(** Nearest integer, ties to the even one. *)
Definition round_half_even (x : Q) : Z :=
  let f := Qfloor x in
  match Qcompare (x - inject_Z f) (1 # 2) with
  | Lt => f
  | Gt => (f + 1)%Z
  | Eq => if Z.even f then f else (f + 1)%Z
  end.

(** [round(x, 2)]. *)
Definition py_round2 (x : Q) : Q := inject_Z (round_half_even (x * 100)) / 100.

(** ** Insertion-ordered dicts

    A key type comes with its equality test ([__eq__]); the keys used here
    are strings (subjects) and optional strings (the [_id] of a group, [null]
    when the grouping field is absent). *)

Class Hashable (K : Type) : Type := {
  key_eqb : K -> K -> bool;
  key_eqb_spec : forall x y : K, reflect (x = y) (key_eqb x y)
}.

#[export] Instance string_key : Hashable string :=
  {| key_eqb := String.eqb; key_eqb_spec := String.eqb_spec |}.

Definition option_string_eqb (a b : option string) : bool :=
  match a, b with
  | Some x, Some y => String.eqb x y
  | None, None => true
  | _, _ => false
  end.

Definition option_string_eqb_spec (a b : option string)
  : reflect (a = b) (option_string_eqb a b) :=
  match a, b with
  | Some x, Some y =>
      match String.eqb_spec x y in reflect _ c return reflect (Some x = Some y) c with
      | ReflectT _ e => ReflectT _ (f_equal Some e)
      | ReflectF _ n =>
          ReflectF _ (fun e : Some x = Some y =>
                        n (f_equal (fun o => match o with Some z => z | None => x end) e))
      end
  | None, None => ReflectT _ eq_refl
  | Some x, None =>
      ReflectF _ (fun e : Some x = None =>
                    eq_ind (Some x) (fun o => match o with Some _ => True | None => False end)
                           I None e)
  | None, Some y =>
      ReflectF _ (fun e : None = Some y =>
                    eq_ind None (fun o => match o with Some _ => False | None => True end)
                           I (Some y) e)
  end.

#[export] Instance option_string_key : Hashable (option string) :=
  {| key_eqb := option_string_eqb; key_eqb_spec := option_string_eqb_spec |}.

Definition dict (K V : Type) : Type := list (K * V).

Fixpoint dict_get {K V : Type} `{Hashable K} (d : dict K V) (k : K) : option V :=
  match d with
  | [] => None
  | (k', v) :: rest => if key_eqb k' k then Some v else dict_get rest k
  end.

Definition keys {K V : Type} (d : dict K V) : list K := map fst d.

(** [d.setdefault(k, []).append(x)]: the list under [k] grows in place; a new
    key goes to the end of the dict. *)
Fixpoint setdefault_append {K V : Type} `{Hashable K} (d : dict K (list V)) (k : K) (x : V)
  : dict K (list V) :=
  match d with
  | [] => [(k, [x])]
  | (k', v) :: rest =>
      if key_eqb k' k then (k', v ++ [x]) :: rest
      else (k', v) :: setdefault_append rest k x
  end.

(** Truthiness of a container: [if d] is [True] on a non-empty one. *)
Definition truthy {A : Type} (l : list A) : bool :=
  match l with [] => false | _ :: _ => true end.

(** ** [max] and [min] with a key function

    CPython keeps the first item and replaces it when a later key compares
    strictly greater ([max]) or strictly smaller ([min]).  The key function
    here is [dict.get], whose value may be [None]; ordering [None] raises
    [TypeError]. *)

Definition py_lt (x y : option Q) : result bool :=
  match x, y with
  | Some a, Some b => Ok (Qltb a b)
  | _, _ => Raise TypeError
  end.

Fixpoint max_loop {A : Type} (key : A -> option Q) (maxitem : A) (maxval : option Q)
  (rest : list A) : result A :=
  match rest with
  | [] => Ok maxitem
  | item :: rest' =>
      let val := key item in
      gt <- py_lt maxval val ;;
      if (gt : bool) then max_loop key item val rest' else max_loop key maxitem maxval rest'
  end.

Definition py_max {A : Type} (key : A -> option Q) (xs : list A) : result A :=
  match xs with
  | [] => Raise ValueError
  | item :: rest => max_loop key item (key item) rest
  end.

Fixpoint min_loop {A : Type} (key : A -> option Q) (minitem : A) (minval : option Q)
  (rest : list A) : result A :=
  match rest with
  | [] => Ok minitem
  | item :: rest' =>
      let val := key item in
      lt <- py_lt val minval ;;
      if (lt : bool) then min_loop key item val rest' else min_loop key minitem minval rest'
  end.

Definition py_min {A : Type} (key : A -> option Q) (xs : list A) : result A :=
  match xs with
  | [] => Raise ValueError
  | item :: rest => min_loop key item (key item) rest
  end.

(** ** Stored assessment records

    [compute_stats] receives the documents of the [assessment] collection as
    dicts and reads them with [a.get(key, default)]: a field is [None] here
    when the key is absent.  A key that is present holds a number (a string
    for the subject and the identifier): a stored null or text in a numeric
    field, on which [float()] raises, is not a value of this type. *)

Record AssessmentDoc : Type := {
  doc_student_id : option string;
  doc_subject : option string;
  doc_score : option Q;
  doc_total : option Q
}.

Definition get {V : Type} (field : option V) (default : V) : V :=
  match field with
  | Some v => v
  | None => default
  end.

Record Stats : Type := {
  overall_average : Q;
  per_subject_average : dict string Q;
  best_subject : option string;
  worst_subject : option string;
  assessments_count : Z
}.

(** ** [compute_stats] *)

(** Lines 76 to 78: the percentage of one assessment.  [float(x)] is the
    identity on the numbers of the model. *)
Definition percentage (a : AssessmentDoc) : result Q :=
  let score := get (doc_score a) 0 in
  let total := py_or (get (doc_total a) 0) 1 in
  q <- py_truediv score total ;;
  Ok (q * 100).

(** The body of the loop over the assessments; the state is
    [(subject_scores, overall_scores)]. *)
Definition stats_loop (st : dict string (list Q) * list Q) (a : AssessmentDoc)
  : result (dict string (list Q) * list Q) :=
  let '(subject_scores, overall_scores) := st in
  pct <- percentage a ;;
  let overall_scores := overall_scores ++ [pct] in
  let subject := get (doc_subject a) "Unknown" in
  let subject_scores := setdefault_append subject_scores subject pct in
  Ok (subject_scores, overall_scores).

Definition average (v : list Q) : result Q := py_truediv (py_sum v) (len v).

Definition compute_stats (assessments : list AssessmentDoc) : result Stats :=
  '(subject_scores, overall_scores) <- for_each stats_loop assessments ([], []) ;;
  per_subject <- (if truthy subject_scores
                  then dict_comprehension average subject_scores
                  else Ok []) ;;
  overall_avg <- (if truthy overall_scores then average overall_scores else Ok 0) ;;
  best <- (if truthy per_subject
           then s <- py_max (dict_get per_subject) (keys per_subject) ;; Ok (Some s)
           else Ok None) ;;
  worst <- (if truthy per_subject
            then s <- py_min (dict_get per_subject) (keys per_subject) ;; Ok (Some s)
            else Ok None) ;;
  Ok {| overall_average := py_round2 overall_avg;
        per_subject_average := map (fun kv => (fst kv, py_round2 (snd kv))) per_subject;
        best_subject := best;
        worst_subject := worst;
        assessments_count := Z.of_nat (List.length assessments) |}.

(** ** [compute_stats] on binary64 floats

    The same function with the numbers the interpreter computes with: a
    Python [float] is an IEEE 754 binary64 value, here a primitive [float],
    and every operation rounds as the hardware does.  This is the embedding
    for the statements that fix the digits of a reported average.

    [sum] adds from the left in CPython up to 3.11 and with Neumaier's
    compensation from 3.12 on; [compensated] says which interpreter runs. *)

Module Binary64.
Local Open Scope float_scope.

(** [a / b] on floats. *)
Definition py_truediv (a b : float) : result float :=
  if b =? 0 then Raise ZeroDivisionError else Ok (a / b).

(** [float(n)] of an int: the nearest float. *)
Definition float_of_int (n : Z) : float :=
  SF2Prim (binary_normalize prec emax n 0 false).

(** [a / n] with a float [a] and an int [n].  The int is converted and the
    quotient of floats taken; a non-zero int never converts to 0.0, so the
    test for zero is made on the int. *)
Definition py_truediv_int (a : float) (n : Z) : result float :=
  if (n =? 0)%Z then Raise ZeroDivisionError else Ok (a / float_of_int n).

(** [x or d]: 0.0 and -0.0 are falsy, every other float (NaN too) is truthy. *)
Definition py_or (x d : float) : float :=
  if x =? 0 then d else x.

(** [sum(v)] up to CPython 3.11. *)
Definition sum_left (v : list float) : float := fold_left PrimFloat.add v 0.

Definition is_finite (x : float) : bool := negb (is_nan x) && negb (is_infinity x).

(** The loop of [sum] from CPython 3.12 on: [hi] is the running sum and [c]
    the compensation, added at the end when it is non-zero and finite. *)
Fixpoint neumaier (hi c : float) (v : list float) : float :=
  match v with
  | [] => if negb (c =? 0) && is_finite c then hi + c else hi
  | x :: rest =>
      let t := hi + x in
      let c' := if abs x <=? abs hi then c + ((hi - t) + x) else c + ((x - t) + hi) in
      neumaier t c' rest
  end.

Definition sum_compensated (v : list float) : float :=
  match v with
  | [] => 0
  | x :: rest => neumaier (0 + x) 0 rest
  end.

Definition builtin_sum (compensated : bool) (v : list float) : float :=
  if compensated then sum_compensated v else sum_left v.

(** The value of the finite float with mantissa [m] and exponent [e],
    without its sign. *)
Definition exact_abs (m : positive) (e : Z) : Q :=
  match e with
  | Zneg p => Zpos m # (2 ^ p)
  | _ => inject_Z (Zpos m * 2 ^ e)
  end.

(** The float nearest to [n / 100], with sign [s]. *)
Definition nearest_hundredths (s : bool) (n : Z) : float :=
  match n with
  | Zpos p => SF2Prim (SFdiv prec emax (S754_finite s p 0) (S754_finite false 100 0))
  | _ => if s then neg_zero else zero
  end.

(** [round(x, 2)]: the exact value of [x] is rounded to the nearest
    hundredth, ties to even, and the float nearest to that decimal is
    returned; infinities and NaN round to themselves. *)
Definition py_round2 (x : float) : float :=
  match Prim2SF x with
  | S754_finite s m e => nearest_hundredths s (round_half_even (exact_abs m e * 100))
  | _ => x
  end.

(** Ordering of the values of [dict.get]; [None] cannot be ordered. *)
Definition py_lt (x y : option float) : result bool :=
  match x, y with
  | Some a, Some b => Ok (a <? b)
  | _, _ => Raise TypeError
  end.

Fixpoint max_loop {A : Type} (key : A -> option float) (maxitem : A)
  (maxval : option float) (rest : list A) : result A :=
  match rest with
  | [] => Ok maxitem
  | item :: rest' =>
      let val := key item in
      gt <- py_lt maxval val ;;
      if (gt : bool) then max_loop key item val rest' else max_loop key maxitem maxval rest'
  end.

Definition py_max {A : Type} (key : A -> option float) (xs : list A) : result A :=
  match xs with
  | [] => Raise ValueError
  | item :: rest => max_loop key item (key item) rest
  end.

Fixpoint min_loop {A : Type} (key : A -> option float) (minitem : A)
  (minval : option float) (rest : list A) : result A :=
  match rest with
  | [] => Ok minitem
  | item :: rest' =>
      let val := key item in
      lt <- py_lt val minval ;;
      if (lt : bool) then min_loop key item val rest' else min_loop key minitem minval rest'
  end.

Definition py_min {A : Type} (key : A -> option float) (xs : list A) : result A :=
  match xs with
  | [] => Raise ValueError
  | item :: rest => min_loop key item (key item) rest
  end.

(** A stored record; a field is [None] when the key is absent. *)
Record AssessmentDoc : Type := {
  doc_student_id : option string;
  doc_subject : option string;
  doc_score : option float;
  doc_total : option float
}.

Record Stats : Type := {
  overall_average : float;
  per_subject_average : dict string float;
  best_subject : option string;
  worst_subject : option string;
  assessments_count : Z
}.

(** Lines 76 to 78. *)
Definition percentage (a : AssessmentDoc) : result float :=
  let score := get (doc_score a) 0 in
  let total := py_or (get (doc_total a) 0) 1 in
  q <- py_truediv score total ;;
  Ok (q * 100).

Definition stats_loop (st : dict string (list float) * list float) (a : AssessmentDoc)
  : result (dict string (list float) * list float) :=
  let '(subject_scores, overall_scores) := st in
  pct <- percentage a ;;
  let overall_scores := (overall_scores ++ [pct])%list in
  let subject := get (doc_subject a) "Unknown"%string in
  let subject_scores := setdefault_append subject_scores subject pct in
  Ok (subject_scores, overall_scores).

(** [sum(v)/len(v)]. *)
Definition average (compensated : bool) (v : list float) : result float :=
  py_truediv_int (builtin_sum compensated v) (Z.of_nat (List.length v)).

Definition compute_stats (compensated : bool) (assessments : list AssessmentDoc)
  : result Stats :=
  '(subject_scores, overall_scores) <- for_each stats_loop assessments ([], []) ;;
  per_subject <- (if truthy subject_scores
                  then dict_comprehension (average compensated) subject_scores
                  else Ok []) ;;
  overall_avg <- (if truthy overall_scores
                  then average compensated overall_scores
                  else Ok 0) ;;
  best <- (if truthy per_subject
           then s <- py_max (dict_get per_subject) (keys per_subject) ;; Ok (Some s)
           else Ok None) ;;
  worst <- (if truthy per_subject
            then s <- py_min (dict_get per_subject) (keys per_subject) ;; Ok (Some s)
            else Ok None) ;;
  Ok {| overall_average := py_round2 overall_avg;
        per_subject_average := map (fun kv => (fst kv, py_round2 (snd kv))) per_subject;
        best_subject := best;
        worst_subject := worst;
        assessments_count := Z.of_nat (List.length assessments) |}.

(** *** The statistics as the specification words them *)

Definition effective_total (a : AssessmentDoc) : float :=
  match doc_total a with
  | Some t => if t =? 0 then 1 else t
  | None => 1
  end.

Definition score_of (a : AssessmentDoc) : float :=
  match doc_score a with
  | Some s => s
  | None => 0
  end.

Definition pct_of (a : AssessmentDoc) : float := (score_of a / effective_total a) * 100.

Definition subject_of (a : AssessmentDoc) : string :=
  match doc_subject a with
  | Some s => s
  | None => "Unknown"%string
  end.

(** Arithmetic mean of a non-empty list: the sum over the number of
    elements. *)
Definition mean (compensated : bool) (v : list float) : float :=
  builtin_sum compensated v / float_of_int (Z.of_nat (List.length v)).

(** The percentages of the assessments of one subject, in input order. *)
Definition group_of (l : list AssessmentDoc) (s : string) : list float :=
  map pct_of (filter (fun a => String.eqb (subject_of a) s) l).

Definition grouped_from (d : dict string (list float)) (l : list AssessmentDoc)
  : dict string (list float) :=
  fold_left (fun d a => setdefault_append d (subject_of a) (pct_of a)) l d.

Definition per_subject_of (compensated : bool) (l : list AssessmentDoc)
  : dict string float :=
  map (fun kv => (fst kv, mean compensated (snd kv))) (grouped_from [] l).

Definition overall_of (compensated : bool) (l : list AssessmentDoc) : float :=
  match l with
  | [] => 0
  | _ => mean compensated (map pct_of l)
  end.

(** *** Example records *)

Definition mk_doc (subj : string) (sc tot : float) : AssessmentDoc :=
  {| doc_student_id := Some "s1"%string; doc_subject := Some subj;
     doc_score := Some sc; doc_total := Some tot |}.

Definition ex_23_of_160 : AssessmentDoc := mk_doc "Math" 23 160.
Definition ex_math50 : AssessmentDoc := mk_doc "Math" 50 100.
Definition ex_math80 : AssessmentDoc := mk_doc "Math" 80 100.
Definition ex_sci100 : AssessmentDoc := mk_doc "Science" 100 100.
Definition ex_no_subject : AssessmentDoc :=
  {| doc_student_id := None; doc_subject := None;
     doc_score := Some 1; doc_total := Some 3 |}.

(** Subject A with 1 of 3 and 2 of 3, subject B with 3 of 6: the mean of A
    is 49.99999999999999 in floats, the mean of B is 50.0. *)
Definition ex_near_tie : list AssessmentDoc :=
  [mk_doc "A" 1 3; mk_doc "A" 2 3; mk_doc "B" 3 6].

End Binary64.

(** ** Request models of [schemas.py]

    A value of [Assessment] has passed the framework's validation: the
    required fields are present.  The range constraints of the fields
    ([score >= 0], [total > 0]) are [valid_assessment]. *)

Module Schemas.

Record Student : Type := {
  name : string;
  email : option string;
  class_name : option string;
  roll_no : option string
}.

Record Assessment : Type := {
  student_id : string;
  subject : string;
  score : Q;
  total : Q;
  assessment_date : option string;
  assessment_type : option string
}.


End Schemas.

(** ** [bson.ObjectId]

    The driver's identifier type, an external library.  Its constructor
    accepts a string of exactly 24 hexadecimal digits (the 12 bytes of the
    identifier); called with [None] it generates a new identifier, one that
    no stored document has.  Every other string raises [InvalidId] here.  The
    library reads the 24 characters with [bytes.fromhex], which also lets
    ASCII whitespace through between two bytes and then yields fewer than 12
    bytes; such strings are not given an identifier by this model. *)

Inductive ObjectId : Type :=
| Oid (binary : N)
| OidGenerated.

Definition hex_digit (c : ascii) : option N :=
  let n := N_of_ascii c in
  if ((48 <=? n) && (n <=? 57))%N then Some (n - 48)%N
  else if ((97 <=? n) && (n <=? 102))%N then Some (n - 87)%N
  else if ((65 <=? n) && (n <=? 70))%N then Some (n - 55)%N
  else None.

Fixpoint fromhex (s : string) (acc : N) : option N :=
  match s with
  | EmptyString => Some acc
  | String c rest =>
      match hex_digit c with
      | Some d => fromhex rest (16 * acc + d)%N
      | None => None
      end
  end.

Definition bson_ObjectId (oid : option string) : result ObjectId :=
  match oid with
  | None => Ok OidGenerated
  | Some s =>
      if Nat.eqb (String.length s) 24
      then match fromhex s 0%N with
           | Some v => Ok (Oid v)
           | None => Raise InvalidId
           end
      else Raise InvalidId
  end.

Definition oid_eqb (a b : ObjectId) : bool :=
  match a, b with
  | Oid x, Oid y => N.eqb x y
  | _, _ => false
  end.

Definition hex_char (d : N) : ascii :=
  ascii_of_N (if (d <? 10)%N then 48 + d else 87 + d)%N.

Fixpoint hex_digits (n : nat) (v : N) (acc : string) : string :=
  match n with
  | O => acc
  | S n' => hex_digits n' (v / 16)%N (String (hex_char (v mod 16)%N) acc)
  end.

(** [str(oid)]. *)
Definition oid_str (v : N) : string := hex_digits 24 v "".

(** ** The document store

    [db] is the module-level handle imported from [database]; it is [None]
    when no database is configured, and then [db["student"]] raises
    [TypeError].  A configured database holds the two collections.  The
    store is an external service: any operation on it may fail, and [fails]
    says which do, raising [PyMongoError]. *)

Record StudentDoc : Type := {
  student_oid : ObjectId;
  student_doc_name : option string
}.

Inductive Operation : Type :=
| OpFindOne (oid : ObjectId)
| OpFind
| OpAggregate
| OpInsert.

Record Database : Type := {
  student : list StudentDoc;
  assessment : list AssessmentDoc;
  next_oid : N;
  fails : Operation -> bool
}.

(** [db[coll]] followed by the operation [op] on the collection. *)
Definition on_collection {A : Type} (db : option Database) (op : Operation)
  (run : Database -> A) : result A :=
  match db with
  | None => Raise TypeError
  | Some d => if fails d op then Raise PyMongoError else Ok (run d)
  end.

(** [db["student"].find_one({"_id": oid})]. *)
Definition find_one_student (db : option Database) (oid : ObjectId)
  : result (option StudentDoc) :=
  on_collection db (OpFindOne oid)
    (fun d => find (fun s => oid_eqb (student_oid s) oid) (student d)).

(** Modelled from the spec: [database.get_documents] is not among the sources.
    [get_documents(collection, filter?) -> list of records]; here for the
    [assessment] collection, the filter being an optional [student_id]. *)
Definition get_documents_assessment (db : option Database) (filter_student_id : option string)
  : result (list AssessmentDoc) :=
  match db with
  | None => Raise PyMongoError
  | Some d =>
      if fails d OpFind then Raise PyMongoError
      else
        Ok match filter_student_id with
           | None => assessment d
           | Some sid =>
               filter (fun a => match doc_student_id a with
                                | Some s => String.eqb s sid
                                | None => false
                                end) (assessment d)
           end
  end.

Definition assessment_doc (a : Schemas.Assessment) : AssessmentDoc :=
  {| doc_student_id := Some (Schemas.student_id a);
     doc_subject := Some (Schemas.subject a);
     doc_score := Some (Schemas.score a);
     doc_total := Some (Schemas.total a) |}.

(** Modelled from the spec: [database.create_document] is not among the
    sources.  [create_document(collection, record) -> id] stores the record
    under an identifier assigned by the store and returns the identifier as a
    string; here for the [assessment] collection.  The second component is
    the store after the call. *)
Definition create_document_assessment (db : option Database) (a : Schemas.Assessment)
  : result string * option Database :=
  match db with
  | None => (Raise PyMongoError, db)
  | Some d =>
      if fails d OpInsert then (Raise PyMongoError, db)
      else
        (Ok (oid_str (next_oid d)),
         Some {| student := student d;
                 assessment := assessment d ++ [assessment_doc a];
                 next_oid := N.succ (next_oid d);
                 fails := fails d |})
  end.

(** ** Helpers and routes of [main.py] *)

(** [create_assessment] passes the string of the request; [overall_overview]
    passes the [_id] of a leaderboard row, which is [None] when the documents
    of the group have no [student_id]. *)
Definition to_object_id (id_str : option string) : result ObjectId :=
  match bson_ObjectId id_str with
  | Ok oid => Ok oid
  | Raise _ => Raise (HTTPException 400 "Invalid ID format")
  end.

(** [POST /api/assessments].  The [try] block covers both the conversion of
    the identifier and the lookup. *)
Definition create_assessment (db : option Database) (assessment : Schemas.Assessment)
  : result string * option Database :=
  let sid := Schemas.student_id assessment in
  let doc := match (oid <- to_object_id (Some sid) ;; find_one_student db oid) with
             | Ok found => found
             | Raise _ => None
             end in
  match doc with
  | None => (Raise (HTTPException 404 "Student not found"), db)
  | Some _ => create_document_assessment db assessment
  end.

(** [GET /api/students/{student_id}/stats]. *)
Definition get_student_stats (db : option Database) (student_id : string) : result Stats :=
  assessments <- get_documents_assessment db (Some student_id) ;;
  compute_stats assessments.

(** ** The leaderboard pipeline

    The aggregation runs in the store; each stage is given the meaning the
    store documents for it.  A field that is absent reads as [null] ([None]):
    [null] is not greater than 0, arithmetic on [null] gives [null], [$avg]
    skips [null] and is [null] when nothing is left, and [null] sorts below
    every number. *)

Record GroupRow : Type := {
  _id : option string;
  avgPct : option Q;
  count : Z
}.

(** [$gt: ["$total", 0]]. *)
Definition mongo_gt0 (x : option Q) : bool :=
  match x with
  | Some t => Qltb 0 t
  | None => false
  end.

(** [$divide]: an error of the aggregation when the divisor is zero. *)
Definition mongo_divide (x : option Q) (y : Q) : result (option Q) :=
  if Qeq_bool y 0 then Raise PyMongoError
  else Ok (option_map (fun a => a / y) x).

Definition mongo_multiply (x : option Q) (y : Q) : option Q :=
  option_map (fun a => a * y) x.

(** Stage [$addFields]: the [pct] of one document. *)
Definition add_fields_pct (a : AssessmentDoc) : result (option Q) :=
  let divisor := if mongo_gt0 (doc_total a) then get (doc_total a) 1 else 1 in
  q <- mongo_divide (doc_score a) divisor ;;
  Ok (mongo_multiply q 100).

Fixpoint numeric (v : list (option Q)) : list Q :=
  match v with
  | [] => []
  | Some x :: rest => x :: numeric rest
  | None :: rest => numeric rest
  end.

(** [$avg]. *)
Definition mongo_avg (v : list (option Q)) : option Q :=
  match numeric v with
  | [] => None
  | xs => Some (py_sum xs / len xs)
  end.

(** Stage [$group]. *)
Definition group_by_student (docs : list (AssessmentDoc * option Q)) : list GroupRow :=
  let groups := fold_left (fun g d => setdefault_append g (doc_student_id (fst d)) (snd d))
                          docs [] in
  map (fun g => {| _id := fst g;
                   avgPct := mongo_avg (snd g);
                   count := Z.of_nat (List.length (snd g)) |})
      groups.

(** The sort order of the store on [avgPct]: [null] first, then the numbers. *)
Definition avg_leb (x y : option Q) : bool :=
  match x, y with
  | None, _ => true
  | Some _, None => false
  | Some a, Some b => Qle_bool a b
  end.

Fixpoint insert_desc (r : GroupRow) (rows : list GroupRow) : list GroupRow :=
  match rows with
  | [] => [r]
  | h :: rest =>
      if avg_leb (avgPct r) (avgPct h) then h :: insert_desc r rest
      else r :: rows
  end.

(** Stage [$sort: {avgPct: -1}]. *)
Definition sort_avgPct_desc (rows : list GroupRow) : list GroupRow :=
  fold_right insert_desc [] rows.

(** [db["assessment"].aggregate(pipeline)]: [$addFields], [$group], [$sort],
    [$limit: 5]. *)
Definition aggregate (db : option Database) : result (list GroupRow) :=
  docs <- on_collection db OpAggregate assessment ;;
  with_pct <- for_each (fun acc a => pct <- add_fields_pct a ;; Ok (acc ++ [(a, pct)]))
                       docs [] ;;
  Ok (firstn 5 (sort_avgPct_desc (group_by_student with_pct))).

Record TopStudent : Type := {
  top_student_id : option string;
  top_avgPct : option Q;
  top_count : Z;
  student_name : option string
}.

(** The body of the loop over [top]: rename [_id] and attach the name. *)
Definition attach_name (db : option Database) (t : GroupRow) : result TopStudent :=
  let student_id := _id t in
  oid <- to_object_id student_id ;;
  sdoc <- find_one_student db oid ;;
  Ok {| top_student_id := student_id;
        top_avgPct := avgPct t;
        top_count := count t;
        student_name := match sdoc with
                        | Some s => student_doc_name s
                        | None => None
                        end |}.

(** The [try] block of [overall_overview]. *)
Definition top_students_try (db : option Database) : result (list TopStudent) :=
  top <- aggregate db ;;
  for_each (fun acc t => t' <- attach_name db t ;; Ok (acc ++ [t'])) top [].

Record Overview : Type := {
  stats : Stats;
  top_students : list TopStudent
}.

(** [GET /api/overview]. *)
Definition overall_overview (db : option Database) : result Overview :=
  assessments <- get_documents_assessment db None ;;
  stats <- compute_stats assessments ;;
  let top := match top_students_try db with
             | Ok top => top
             | Raise _ => []
             end in
  Ok {| stats := stats; top_students := top |}.

(** ** The statistics as the specification words them *)

(** The total a percentage is taken of: the record's [total], or 1 when
    [total] is absent or zero. *)
Definition effective_total (a : AssessmentDoc) : Q :=
  match doc_total a with
  | Some t => if Qeq_bool t 0 then 1 else t
  | None => 1
  end.

Definition score_of (a : AssessmentDoc) : Q :=
  match doc_score a with
  | Some s => s
  | None => 0
  end.

Definition pct_of (a : AssessmentDoc) : Q := (score_of a / effective_total a) * 100.

Definition subject_of (a : AssessmentDoc) : string :=
  match doc_subject a with
  | Some s => s
  | None => "Unknown"
  end.

(** Arithmetic mean of a non-empty list. *)
Definition mean (v : list Q) : Q := py_sum v / len v.

(** The percentages of the assessments of one subject, in input order. *)
Definition group_of (l : list AssessmentDoc) (s : string) : list Q :=
  map pct_of (filter (fun a => String.eqb (subject_of a) s) l).

(** The dict [subject_scores] after the loop has run over [l] from [d]. *)
Definition grouped_from (d : dict string (list Q)) (l : list AssessmentDoc)
  : dict string (list Q) :=
  fold_left (fun d a => setdefault_append d (subject_of a) (pct_of a)) l d.

(** The dict [per_subject] (the means before rounding) computed from [l]. *)
Definition per_subject_of (l : list AssessmentDoc) : dict string Q :=
  map (fun kv => (fst kv, mean (snd kv))) (grouped_from [] l).

(** [b] is a key of [d] whose value no other value exceeds ([None] on the
    empty dict); likewise for the least value. *)
Definition is_argmax (d : dict string Q) (b : option string) : Prop :=
  match b with
  | None => d = []
  | Some s => exists v, dict_get d s = Some v /\
                        forall s' v', dict_get d s' = Some v' -> v' <= v
  end.

Definition is_argmin (d : dict string Q) (b : option string) : Prop :=
  match b with
  | None => d = []
  | Some s => exists v, dict_get d s = Some v /\
                        forall s' v', dict_get d s' = Some v' -> v <= v'
  end.

(** The overall mean before rounding. *)
Definition overall_of (l : list AssessmentDoc) : Q :=
  match l with
  | [] => 0
  | _ => mean (map pct_of l)
  end.

(** ** The API layer as the specification words it *)

(** The identifier string [sid] resolves to an existing Student record. *)
Definition resolves (db : option Database) (sid : string) : Prop :=
  exists d s oid,
    db = Some d /\ In s (student d) /\
    bson_ObjectId (Some sid) = Ok oid /\ student_oid s = oid.

(** The leaderboard's percentage of one assessment: [total > 0 ? total : 1]
    as the divisor; [null] when the score is absent. *)
Definition leaderboard_pct (a : AssessmentDoc) : option Q :=
  match doc_score a with
  | Some s =>
      let divisor := match doc_total a with
                     | Some t => if Qltb 0 t then t else 1
                     | None => 1
                     end in
      Some ((s / divisor) * 100)
  | None => None
  end.

(** The leaderboard percentages of the assessments of one student. *)
Definition leaderboard_group (docs : list AssessmentDoc) (sid : option string)
  : list (option Q) :=
  map leaderboard_pct (filter (fun a => key_eqb (doc_student_id a) sid) docs).



(** A string of 24 hexadecimal digits. *)
Definition hex_digits_24 (s : string) : Prop :=
  String.length s = 24%nat /\ fromhex s 0%N <> None.


(** What the pipeline returns on the documents [docs]. *)
Definition ranked (docs : list AssessmentDoc) : list GroupRow :=
  firstn 5 (sort_avgPct_desc
              (group_by_student (map (fun a => (a, leaderboard_pct a)) docs))).

(** [r1] comes before [r2] in descending order of [avgPct]. *)
Definition desc (r1 r2 : GroupRow) : Prop := avg_leb (avgPct r2) (avgPct r1) = true.

(** A leaderboard entry carries the fields of the row it was made from. *)
Definition same_row (r : GroupRow) (t : TopStudent) : Prop :=
  top_student_id t = _id r /\ top_avgPct t = avgPct r /\ top_count t = count r.

(** The documents after [$addFields], and the groups [$group] makes of them. *)
Definition with_pct (docs : list AssessmentDoc) : list (AssessmentDoc * option Q) :=
  map (fun a => (a, leaderboard_pct a)) docs.

Definition groups_of (docs : list AssessmentDoc) : dict (option string) (list (option Q)) :=
  fold_left (fun g d => setdefault_append g (doc_student_id (fst d)) (snd d))
            (with_pct docs) [].

(** ** Order of first appearance *)

(** The distinct elements of a list, each at the place of its first
    occurrence. *)
Fixpoint first_occurrences {K : Type} `{Hashable K} (l : list K) : list K :=
  match l with
  | [] => []
  | x :: rest => x :: filter (fun y => negb (key_eqb x y)) (first_occurrences rest)
  end.

(** [k] is not among the keys [D]. *)
Definition notin {K : Type} `{Hashable K} (D : list K) (k : K) : bool :=
  negb (existsb (key_eqb k) D).

(** ** Ranges of the stored numbers *)



(** ** Example records *)

Definition mk_doc (sid subj : string) (sc tot : Q) : AssessmentDoc :=
  {| doc_student_id := Some sid; doc_subject := Some subj;
     doc_score := Some sc; doc_total := Some tot |}.

Definition ex_math50 : AssessmentDoc := mk_doc "s1" "Math" 50 100.
Definition ex_math80 : AssessmentDoc := mk_doc "s1" "Math" 80 100.
Definition ex_sci100 : AssessmentDoc := mk_doc "s1" "Science" 100 100.
Definition ex_zero_total : AssessmentDoc :=
  {| doc_student_id := None; doc_subject := Some "X";
     doc_score := Some 10; doc_total := Some 0 |}.

(** The identifier string of the [n]-th object. *)
Definition hex24 (n : N) : string := oid_str n.

Definition mk_student (n : N) (nm : string) : StudentDoc :=
  {| student_oid := Oid n; student_doc_name := Some nm |}.

Definition no_failure : Operation -> bool := fun _ => false.

(** Six students with one assessment each, of 10%, 60%, 30%, 90%, 20%, 50%. *)
Definition ex_db : Database :=
  {| student := [mk_student 1 "Ada"; mk_student 2 "Bob"; mk_student 3 "Cy";
                 mk_student 4 "Dee"; mk_student 5 "Eve"; mk_student 6 "Fay"];
     assessment := [mk_doc (hex24 1) "Math" 10 100; mk_doc (hex24 2) "Math" 60 100;
                    mk_doc (hex24 3) "Math" 30 100; mk_doc (hex24 4) "Math" 90 100;
                    mk_doc (hex24 5) "Math" 20 100; mk_doc (hex24 6) "Math" 50 100];
     next_oid := 100;
     fails := no_failure |}.

(** The same store while its aggregation fails. *)
Definition ex_db_no_aggregate : Database :=
  {| student := student ex_db; assessment := assessment ex_db; next_oid := next_oid ex_db;
     fails := fun op => match op with OpAggregate => true | _ => false end |}.

Definition mk_request (sid : string) : Schemas.Assessment :=
  {| Schemas.student_id := sid; Schemas.subject := "Math";
     Schemas.score := 7; Schemas.total := 10;
     Schemas.assessment_date := None; Schemas.assessment_type := None |}.

(** A well-formed identifier that no student has, and a malformed one. *)
Definition ex_unknown_request : Schemas.Assessment := mk_request (hex24 77).
Definition ex_malformed_request : Schemas.Assessment := mk_request "not-an-object-id".

(** The same store while its lookups by identifier fail. *)
Definition ex_db_no_find : Database :=
  {| student := student ex_db; assessment := assessment ex_db; next_oid := next_oid ex_db;
     fails := fun op => match op with OpFindOne _ => true | _ => false end |}.

(** Two subjects of equal mean, Science met first. *)
Definition ex_tie : list AssessmentDoc :=
  [mk_doc "s1" "Science" 50 100; mk_doc "s1" "Math" 1 2].


(** The overview of [ex_db] and the first entry of its leaderboard. *)
Definition ex_overview : Overview :=
  Eval vm_compute in
    match overall_overview (Some ex_db) with
    | Ok ov => ov
    | Raise _ => {| stats := {| overall_average := 0; per_subject_average := [];
                                best_subject := None; worst_subject := None;
                                assessments_count := 0 |};
                    top_students := [] |}
    end.

Definition ex_first_entry : TopStudent :=
  Eval vm_compute in
    match top_students ex_overview with
    | t :: _ => t
    | [] => {| top_student_id := None; top_avgPct := None; top_count := 0;
               student_name := None |}
    end.

(** * Properties *)

(** ** Arithmetic helpers *)

Lemma Qltb_lt (x y : Q) : Qltb x y = true <-> x < y.
Proof.
  unfold Qltb. rewrite negb_true_iff. split; intro H.
  - apply Qnot_le_lt. intro Hle. apply Qle_bool_iff in Hle. congruence.
  - destruct (Qle_bool y x) eqn:E; [|reflexivity].
    apply Qle_bool_iff in E. exfalso. exact (Qlt_not_le _ _ H E).
Qed.

Lemma Qltb_ge (x y : Q) : Qltb x y = false <-> y <= x.
Proof.
  unfold Qltb. rewrite negb_false_iff. apply Qle_bool_iff.
Qed.

Lemma py_or_nonzero (x : Q) : Qeq_bool (py_or x 1) 0 = false.
Proof.
  unfold py_or. destruct (Qeq_bool x 0) eqn:E; [reflexivity | exact E].
Qed.

Lemma py_or_effective_total (a : AssessmentDoc) :
  py_or (get (doc_total a) 0) 1 = effective_total a.
Proof.
  unfold effective_total, py_or, get. destruct (doc_total a); reflexivity.
Qed.

Lemma effective_total_nonzero (a : AssessmentDoc) : ~ effective_total a == 0.
Proof.
  rewrite <- py_or_effective_total. apply Qeq_bool_neq, py_or_nonzero.
Qed.

Lemma percentage_ok (a : AssessmentDoc) : percentage a = Ok (pct_of a).
Proof.
  unfold percentage, py_truediv. rewrite py_or_nonzero. simpl.
  rewrite py_or_effective_total. unfold pct_of, score_of, get.
  destruct (doc_score a); reflexivity.
Qed.

Lemma len_pos {A : Type} (v : list A) : v <> [] -> Qeq_bool (len v) 0 = false.
Proof.
  intro H. destruct v as [|x v]; [congruence|].
  unfold len. apply not_true_is_false. intro E. apply Qeq_bool_iff in E.
  unfold Qeq in E. simpl in E. lia.
Qed.

Lemma average_ok (v : list Q) : v <> [] -> average v = Ok (mean v).
Proof.
  intro H. unfold average, py_truediv. rewrite (len_pos v H). reflexivity.
Qed.

(** ** The loop of [compute_stats] *)

Lemma stats_loop_ok (ss : dict string (list Q)) (os : list Q) (a : AssessmentDoc) :
  stats_loop (ss, os) a
  = Ok (setdefault_append ss (subject_of a) (pct_of a), os ++ [pct_of a]).
Proof.
  unfold stats_loop. rewrite percentage_ok. simpl.
  unfold subject_of, get. destruct (doc_subject a); reflexivity.
Qed.

Lemma for_each_stats_loop (l : list AssessmentDoc) :
  forall ss os,
    for_each stats_loop l (ss, os) = Ok (grouped_from ss l, os ++ map pct_of l).
Proof.
  induction l as [|a l IH]; intros ss os; cbn [for_each map].
  - now rewrite app_nil_r.
  - rewrite stats_loop_ok. cbn [bind]. rewrite IH.
    unfold grouped_from. cbn [fold_left]. now rewrite <- app_assoc.
Qed.

(** ** Dicts *)

Section Dict.
Context {K : Type} `{HK : Hashable K}.

Lemma key_eqb_eq (x y : K) : key_eqb x y = true <-> x = y.
Proof. destruct (key_eqb_spec x y); split; congruence. Qed.

Lemma key_eqb_refl (x : K) : key_eqb x x = true.
Proof. now apply key_eqb_eq. Qed.

Lemma key_eqb_sym (x y : K) : key_eqb x y = key_eqb y x.
Proof.
  destruct (key_eqb_spec x y), (key_eqb_spec y x); congruence.
Qed.

Lemma dict_get_setdefault_append {V : Type} (d : dict K (list V)) (k k' : K) (x : V) :
  dict_get (setdefault_append d k x) k'
  = if key_eqb k k'
    then Some (match dict_get d k with Some v => v ++ [x] | None => [x] end)
    else dict_get d k'.
Proof.
  induction d as [|[k0 v0] d IH]; simpl.
  - destruct (key_eqb k k'); reflexivity.
  - destruct (key_eqb k0 k) eqn:E0; simpl.
    + apply key_eqb_eq in E0. subst k0.
      destruct (key_eqb k k'); reflexivity.
    + destruct (key_eqb k0 k') eqn:E1.
      * apply key_eqb_eq in E1. subst k0.
        rewrite key_eqb_sym in E0. now rewrite E0.
      * exact IH.
Qed.

Lemma setdefault_append_nonempty {V : Type} (d : dict K (list V)) (k : K) (x : V) :
  Forall (fun kv => snd kv <> []) d ->
  Forall (fun kv => snd kv <> []) (setdefault_append d k x).
Proof.
  induction d as [|[k0 v0] d IH]; intro H; simpl.
  - constructor; [discriminate | constructor].
  - inversion H as [|? ? H0 Hd]; subst.
    destruct (key_eqb k0 k).
    + constructor; [|assumption]. simpl. destruct v0; discriminate.
    + constructor; [assumption | now apply IH].
Qed.

Lemma setdefault_append_truthy {V : Type} (d : dict K (list V)) (k : K) (x : V) :
  truthy (setdefault_append d k x) = true.
Proof.
  destruct d as [|[k0 v0] d]; simpl; [reflexivity|].
  destruct (key_eqb k0 k); reflexivity.
Qed.

Lemma keys_setdefault_append {V : Type} (d : dict K (list V)) (k : K) (x : V) :
  keys (setdefault_append d k x)
  = if existsb (key_eqb k) (keys d) then keys d else keys d ++ [k].
Proof.
  induction d as [|[k0 v0] d IH]; [reflexivity|].
  cbn [setdefault_append keys map fst existsb].
  rewrite (key_eqb_sym k k0).
  destruct (key_eqb k0 k); [reflexivity|].
  cbn [map fst orb]. fold (keys (setdefault_append d k x)). fold (keys d).
  rewrite IH. destruct (existsb (key_eqb k) (keys d)); reflexivity.
Qed.

Lemma setdefault_append_NoDup {V : Type} (d : dict K (list V)) (k : K) (x : V) :
  NoDup (keys d) -> NoDup (keys (setdefault_append d k x)).
Proof.
  intro H. rewrite keys_setdefault_append.
  destruct (existsb (key_eqb k) (keys d)) eqn:E; [exact H|].
  apply NoDup_app; [exact H | repeat constructor; intros [] |].
  intros a Ha [<- | []].
  assert (existsb (key_eqb k) (keys d) = true); [|congruence].
  apply existsb_exists. exists k. split; [exact Ha | apply key_eqb_refl].
Qed.

Lemma dict_get_map_values {V W : Type} (f : V -> W) (d : dict K V) (k : K) :
  dict_get (map (fun kv => (fst kv, f (snd kv))) d) k = option_map f (dict_get d k).
Proof.
  induction d as [|[k0 v0] d IH]; [reflexivity|].
  simpl. destruct (key_eqb k0 k); [reflexivity | exact IH].
Qed.

Lemma keys_map_values {V W : Type} (f : V -> W) (d : dict K V) :
  keys (map (fun kv => (fst kv, f (snd kv))) d) = keys d.
Proof.
  unfold keys. rewrite map_map. reflexivity.
Qed.

Lemma dict_get_keys {V : Type} (d : dict K V) (k : K) :
  In k (keys d) -> exists v, dict_get d k = Some v.
Proof.
  induction d as [|[k0 v0] d IH]; simpl; [tauto|].
  intros [E | H].
  - subst k0. rewrite key_eqb_refl. now exists v0.
  - destruct (key_eqb k0 k); [now exists v0 | now apply IH].
Qed.

Lemma dict_get_in_keys {V : Type} (d : dict K V) (k : K) (v : V) :
  dict_get d k = Some v -> In k (keys d).
Proof.
  induction d as [|[k0 v0] d IH]; simpl; [discriminate|].
  destruct (key_eqb k0 k) eqn:E.
  - apply key_eqb_eq in E. now left.
  - intro H. right. now apply IH.
Qed.

(** With distinct keys, an item of the dict is what [get] returns. *)
Lemma dict_get_item {V : Type} (d : dict K V) (k : K) (v : V) :
  NoDup (keys d) -> In (k, v) d -> dict_get d k = Some v.
Proof.
  induction d as [|[k0 v0] d IH]; simpl; [tauto|].
  intros Hnd [E | Hin].
  - injection E as -> ->. now rewrite key_eqb_refl.
  - inversion Hnd as [|? ? Hnotin Hnd']; subst.
    destruct (key_eqb k0 k) eqn:E; [|now apply IH].
    apply key_eqb_eq in E. subst k0. exfalso. apply Hnotin.
    change k with (fst (k, v)). now apply in_map.
Qed.
(** Grouping a list by a key: the list under [k] collects the values of the
    elements with key [k], in order. *)
Lemma dict_get_fold_setdefault_append {A V : Type} (kf : A -> K) (vf : A -> V)
  (l : list A) :
  forall (d : dict K (list V)) (k : K),
    dict_get (fold_left (fun g a => setdefault_append g (kf a) (vf a)) l d) k
    = match dict_get d k, map vf (filter (fun a => key_eqb (kf a) k) l) with
      | None, [] => None
      | None, g => Some g
      | Some v, g => Some (v ++ g)
      end.
Proof.
  induction l as [|a l IH]; intros d k.
  - cbn. destruct (dict_get d k); [now rewrite app_nil_r | reflexivity].
  - cbn [fold_left]. rewrite IH, dict_get_setdefault_append. cbn [filter].
    destruct (key_eqb (kf a) k) eqn:E.
    + apply key_eqb_eq in E. subst k. cbn [map].
      destruct (dict_get d (kf a)).
      * now rewrite <- app_assoc.
      * reflexivity.
    + destruct (dict_get d k); reflexivity.
Qed.

Lemma fold_setdefault_append_NoDup {A V : Type} (kf : A -> K) (vf : A -> V)
  (l : list A) :
  forall d : dict K (list V),
    NoDup (keys d) ->
    NoDup (keys (fold_left (fun g a => setdefault_append g (kf a) (vf a)) l d)).
Proof.
  induction l as [|a l IH]; intros d H; [exact H|].
  apply IH, setdefault_append_NoDup, H.
Qed.
End Dict.


Lemma grouped_from_nonempty (l : list AssessmentDoc) :
  forall d, Forall (fun kv => snd kv <> []) d ->
            Forall (fun kv => snd kv <> []) (grouped_from d l).
Proof.
  induction l as [|a l IH]; intros d H; [exact H|].
  apply IH, setdefault_append_nonempty, H.
Qed.

Lemma grouped_from_truthy (l : list AssessmentDoc) :
  forall d, truthy d = true -> truthy (grouped_from d l) = true.
Proof.
  induction l as [|a l IH]; intros d H; [exact H|].
  apply IH, setdefault_append_truthy.
Qed.

Lemma grouped_truthy (l : list AssessmentDoc) :
  truthy (grouped_from [] l) = truthy l.
Proof.
  destruct l as [|a l]; [reflexivity|].
  unfold grouped_from. cbn [fold_left truthy].
  apply grouped_from_truthy, setdefault_append_truthy.
Qed.

Lemma grouped_from_NoDup (l : list AssessmentDoc) (d : dict string (list Q)) :
  NoDup (keys d) -> NoDup (keys (grouped_from d l)).
Proof.
  exact (fold_setdefault_append_NoDup subject_of pct_of l d).
Qed.

Lemma dict_comprehension_average {K : Type} (d : dict K (list Q)) :
  Forall (fun kv => snd kv <> []) d ->
  dict_comprehension average d = Ok (map (fun kv => (fst kv, mean (snd kv))) d).
Proof.
  induction d as [|[k v] d IH]; intro H; [reflexivity|].
  inversion H as [|? ? Hv Hd]; subst. cbn [dict_comprehension].
  rewrite (average_ok v Hv). cbn [bind]. rewrite (IH Hd). reflexivity.
Qed.

(** ** [max] and [min] over the keys of a dict *)

Section MaxMin.
Context {A : Type} (key : A -> option Q).

Lemma max_loop_spec (rest : list A) :
  forall (m : A) (mv : Q),
    key m = Some mv ->
    (forall x, In x rest -> exists q, key x = Some q) ->
    exists r rv,
      max_loop key m (Some mv) rest = Ok r /\ key r = Some rv /\
      In r (m :: rest) /\ mv <= rv /\
      (forall x q, In x rest -> key x = Some q -> q <= rv).
Proof.
  induction rest as [|item rest IH]; intros m mv Hm Hall.
  - exists m, mv. repeat split; auto using Qle_refl; [now left | intros ? ? []].
  - destruct (Hall item (or_introl eq_refl)) as [q Hq].
    assert (Hrest : forall x, In x rest -> exists q, key x = Some q)
      by (intros x Hx; apply Hall; now right).
    cbn [max_loop]. rewrite Hq. cbn [py_lt bind].
    destruct (Qltb mv q) eqn:E.
    + apply Qltb_lt in E.
      destruct (IH item q Hq Hrest) as (r & rv & Hr & Hk & Hin & Hle & Hmax).
      exists r, rv. repeat split; auto.
      * right. exact Hin.
      * apply Qlt_le_weak in E. eapply Qle_trans; eassumption.
      * intros x q' [<- | Hx] Hq'; [congruence | eauto].
    + apply Qltb_ge in E.
      destruct (IH m mv Hm Hrest) as (r & rv & Hr & Hk & Hin & Hle & Hmax).
      exists r, rv. repeat split; auto.
      * destruct Hin as [<- | Hin]; [now left | right; now right].
      * intros x q' [<- | Hx] Hq'; [|eauto].
        assert (q' = q) by congruence. subst q'.
        eapply Qle_trans; eassumption.
Qed.

Lemma min_loop_spec (rest : list A) :
  forall (m : A) (mv : Q),
    key m = Some mv ->
    (forall x, In x rest -> exists q, key x = Some q) ->
    exists r rv,
      min_loop key m (Some mv) rest = Ok r /\ key r = Some rv /\
      In r (m :: rest) /\ rv <= mv /\
      (forall x q, In x rest -> key x = Some q -> rv <= q).
Proof.
  induction rest as [|item rest IH]; intros m mv Hm Hall.
  - exists m, mv. repeat split; auto using Qle_refl; [now left | intros ? ? []].
  - destruct (Hall item (or_introl eq_refl)) as [q Hq].
    assert (Hrest : forall x, In x rest -> exists q, key x = Some q)
      by (intros x Hx; apply Hall; now right).
    cbn [min_loop]. rewrite Hq. cbn [py_lt bind].
    destruct (Qltb q mv) eqn:E.
    + apply Qltb_lt in E.
      destruct (IH item q Hq Hrest) as (r & rv & Hr & Hk & Hin & Hle & Hmin).
      exists r, rv. repeat split; auto.
      * right. exact Hin.
      * apply Qlt_le_weak in E. eapply Qle_trans; eassumption.
      * intros x q' [<- | Hx] Hq'; [congruence | eauto].
    + apply Qltb_ge in E.
      destruct (IH m mv Hm Hrest) as (r & rv & Hr & Hk & Hin & Hle & Hmin).
      exists r, rv. repeat split; auto.
      * destruct Hin as [<- | Hin]; [now left | right; now right].
      * intros x q' [<- | Hx] Hq'; [|eauto].
        assert (q' = q) by congruence. subst q'.
        eapply Qle_trans; eassumption.
Qed.
End MaxMin.

Lemma py_max_dict (d : dict string Q) :
  truthy d = true ->
  exists b, py_max (dict_get d) (keys d) = Ok b /\ is_argmax d (Some b).
Proof.
  destruct d as [|[k v] d]; [discriminate|]. intros _.
  assert (Hk : dict_get ((k, v) :: d) k = Some v) by (simpl; now rewrite String.eqb_refl).
  destruct (max_loop_spec (dict_get ((k, v) :: d)) (keys d) k v Hk)
    as (r & rv & Hr & Hkr & _ & Hle & Hmax).
  { intros x Hx. apply dict_get_keys. now right. }
  exists r. split.
  - cbn [py_max keys map fst]. rewrite Hk. exact Hr.
  - exists rv. split; [exact Hkr|].
    intros s' v' Hs'. pose proof (dict_get_in_keys _ _ _ Hs') as [E | Hin].
    + simpl in E. subst s'. assert (v' = v) by congruence. now subst v'.
    + eapply Hmax; eassumption.
Qed.

Lemma py_min_dict (d : dict string Q) :
  truthy d = true ->
  exists b, py_min (dict_get d) (keys d) = Ok b /\ is_argmin d (Some b).
Proof.
  destruct d as [|[k v] d]; [discriminate|]. intros _.
  assert (Hk : dict_get ((k, v) :: d) k = Some v) by (simpl; now rewrite String.eqb_refl).
  destruct (min_loop_spec (dict_get ((k, v) :: d)) (keys d) k v Hk)
    as (r & rv & Hr & Hkr & _ & Hle & Hmin).
  { intros x Hx. apply dict_get_keys. now right. }
  exists r. split.
  - cbn [py_min keys map fst]. rewrite Hk. exact Hr.
  - exists rv. split; [exact Hkr|].
    intros s' v' Hs'. pose proof (dict_get_in_keys _ _ _ Hs') as [E | Hin].
    + simpl in E. subst s'. assert (v' = v) by congruence. now subst v'.
    + eapply Hmin; eassumption.
Qed.

(** ** What [compute_stats] returns *)

Lemma compute_stats_ok (l : list AssessmentDoc) :
  exists best worst,
    compute_stats l
    = Ok {| overall_average := py_round2 (overall_of l);
            per_subject_average :=
              map (fun kv => (fst kv, py_round2 (snd kv))) (per_subject_of l);
            best_subject := best;
            worst_subject := worst;
            assessments_count := Z.of_nat (List.length l) |}
    /\ is_argmax (per_subject_of l) best
    /\ is_argmin (per_subject_of l) worst.
Proof.
  unfold compute_stats. rewrite for_each_stats_loop. cbn [bind app].
  rewrite grouped_truthy.
  destruct l as [|a l].
  - exists None, None. repeat split; reflexivity.
  - set (l' := a :: l).
    assert (Ht : truthy (per_subject_of l') = true).
    { unfold per_subject_of. pose proof (grouped_truthy l') as G.
      destruct (grouped_from [] l'); [discriminate G | reflexivity]. }
    destruct (py_max_dict _ Ht) as (b & Hb & Hmax).
    destruct (py_min_dict _ Ht) as (w & Hw & Hmin).
    change (truthy l') with true. cbv iota.
    rewrite dict_comprehension_average
      by (apply grouped_from_nonempty; constructor).
    fold (per_subject_of l'). cbn [bind].
    change (truthy (map pct_of l')) with true. cbv iota.
    rewrite average_ok by discriminate. cbn [bind].
    rewrite Ht, Hb. cbn [bind]. rewrite Hw. cbn [bind].
    exists (Some b), (Some w). repeat split; assumption.
Qed.

(** ** Rounding is monotone *)

Lemma round_half_even_bounds (x : Q) :
  (Qfloor x <= round_half_even x <= Qfloor x + 1)%Z.
Proof.
  unfold round_half_even.
  destruct (Qcompare (x - inject_Z (Qfloor x)) (1 # 2)); [|lia|lia].
  destruct (Z.even (Qfloor x)); lia.
Qed.

Lemma round_half_even_mono (x y : Q) :
  x <= y -> (round_half_even x <= round_half_even y)%Z.
Proof.
  intro Hxy. pose proof (Qfloor_resp_le _ _ Hxy) as Hf.
  destruct (Z.eq_dec (Qfloor x) (Qfloor y)) as [E | NE].
  - assert (Hr : x - inject_Z (Qfloor x) <= y - inject_Z (Qfloor x)).
    { apply Qplus_le_compat; [exact Hxy | apply Qle_refl]. }
    unfold round_half_even. rewrite <- E.
    destruct (Qcompare_spec (x - inject_Z (Qfloor x)) (1 # 2)) as [Hx | Hx | Hx];
      destruct (Qcompare_spec (y - inject_Z (Qfloor x)) (1 # 2)) as [Hy | Hy | Hy];
      try (destruct (Z.even (Qfloor x)); lia); try lia; exfalso.
    + rewrite Hx in Hr. exact (Qlt_not_le _ _ Hy Hr).
    + rewrite Hy in Hr. exact (Qlt_not_le _ _ Hx Hr).
    + apply (Qlt_not_le _ _ Hx). eapply Qle_trans; [exact Hr | now apply Qlt_le_weak].
  - pose proof (round_half_even_bounds x). pose proof (round_half_even_bounds y). lia.
Qed.

Lemma py_round2_mono (x y : Q) : x <= y -> py_round2 x <= py_round2 y.
Proof.
  intro H. unfold py_round2.
  apply Qmult_le_compat_r; [|discriminate].
  rewrite <- Zle_Qle. apply round_half_even_mono.
  apply Qmult_le_compat_r; [exact H | discriminate].
Qed.

Lemma py_round2_lt_inv (x y : Q) : py_round2 x < py_round2 y -> x < y.
Proof.
  intro H. apply Qnot_le_lt. intro Hle.
  exact (Qlt_not_le _ _ H (py_round2_mono _ _ Hle)).
Qed.


(** ** Claims on [compute_stats] *)

(** C1.  The percentage of every assessment is [(score / effective_total) * 100],
    where [effective_total] is the record's total, or 1 when the total is
    absent or zero; the loop of [compute_stats] collects exactly these
    percentages; [compute_stats] returns on every input, so a zero total
    never raises; and on the single record [{score: 10, total: 0, subject: "X"}]
    the percentage is 1000. *)
Theorem percentage_guards_zero_total :
  (forall a, percentage a = Ok ((score_of a / effective_total a) * 100))
  /\ (forall a, ~ effective_total a == 0)
  /\ (forall l, exists ss, for_each stats_loop l ([], []) = Ok (ss, map pct_of l))
  /\ (forall l, exists st, compute_stats l = Ok st)
  /\ percentage ex_zero_total = Ok 1000
  /\ (exists st, compute_stats [ex_zero_total] = Ok st
                 /\ overall_average st == 1000
                 /\ dict_get (per_subject_average st) "X" = Some (100000 # 100)).
Proof.
  split; [exact percentage_ok|].
  split; [exact effective_total_nonzero|].
  split; [intro l; eexists; apply for_each_stats_loop|].
  split.
  - intro l. destruct (compute_stats_ok l) as (b & w & H & _). eauto.
  - split; [reflexivity|]. eexists. split; [vm_compute; reflexivity|].
    split; reflexivity.
Qed.

(** ** Best and worst subject *)






(** C5.  On the empty list [compute_stats] returns an overall average of 0,
    the empty map, no best and no worst subject and a count of 0; on every
    list the count is the length of the list. *)
Theorem empty_input_and_count :
  (exists st,
      compute_stats [] = Ok st /\
      overall_average st == 0 /\
      per_subject_average st = [] /\
      best_subject st = None /\
      worst_subject st = None /\
      assessments_count st = 0%Z)
  /\ (forall l, exists st,
         compute_stats l = Ok st /\ assessments_count st = Z.of_nat (List.length l)).
Proof.
  split.
  - eexists. split; [reflexivity|]. cbn. repeat split.
  - intro l. destruct (compute_stats_ok l) as (b & w & H & _).
    eexists. split; [exact H | reflexivity].
Qed.


(** ** Creating an assessment *)

Lemma oid_eqb_eq (a b : ObjectId) : oid_eqb a b = true -> a = b.
Proof.
  destruct a, b; simpl; try discriminate.
  intro H. apply N.eqb_eq in H. now subst.
Qed.

Lemma create_assessment_unresolved (db : option Database) (a : Schemas.Assessment) :
  ~ resolves db (Schemas.student_id a) ->
  create_assessment db a = (Raise (HTTPException 404 "Student not found"), db).
Proof.
  intro Hno. unfold create_assessment, to_object_id.
  destruct (bson_ObjectId (Some (Schemas.student_id a))) as [oid|e] eqn:E;
    [|reflexivity].
  cbn [bind]. unfold find_one_student, on_collection.
  destruct db as [d|]; [|reflexivity].
  destruct (fails d (OpFindOne oid)); [reflexivity|].
  destruct (find _ (student d)) as [s|] eqn:F; [|reflexivity].
  exfalso. apply Hno. apply find_some in F as [Hin Heq].
  exists d, s, oid. repeat split; auto using oid_eqb_eq.
Qed.

(** The route does create the record when the student is found. *)
Lemma create_assessment_created :
  exists id d',
    create_assessment (Some ex_db) (mk_request (hex24 3)) = (Ok id, Some d') /\
    assessment d' = assessment ex_db ++ [assessment_doc (mk_request (hex24 3))].
Proof.
  eexists. eexists. split; [vm_compute; reflexivity | reflexivity].
Qed.

(** C6.  When the request's [student_id] does not resolve to an existing
    Student record, [create_assessment] raises HTTP 404 and returns the
    store as it was: no record is created. *)
Theorem unknown_student_is_not_found (db : option Database) (a : Schemas.Assessment) :
  ~ resolves db (Schemas.student_id a) ->
  fst (create_assessment db a) = Raise (HTTPException 404 "Student not found")
  /\ snd (create_assessment db a) = db.
Proof.
  intro H. rewrite (create_assessment_unresolved db a H). split; reflexivity.
Qed.

(** C7, where the code departs from the claim.  [to_object_id] does raise
    HTTP 400 on a malformed identifier, but [create_assessment] calls it
    inside its [try] block, whose handler catches the 400 with every
    other exception: the request is answered 404, on every store. *)
Theorem malformed_student_id_is_answered_404 :
  to_object_id (Some "not-an-object-id") = Raise (HTTPException 400 "Invalid ID format")
  /\ forall db,
       create_assessment db ex_malformed_request
       = (Raise (HTTPException 404 "Student not found"), db).
Proof.
  split; [reflexivity|]. intro db. reflexivity.
Qed.

(** The same on every malformed identifier. *)
Lemma create_assessment_malformed (db : option Database) (a : Schemas.Assessment) (e : exn) :
  bson_ObjectId (Some (Schemas.student_id a)) = Raise e ->
  to_object_id (Some (Schemas.student_id a)) = Raise (HTTPException 400 "Invalid ID format")
  /\ create_assessment db a = (Raise (HTTPException 404 "Student not found"), db).
Proof.
  intro H. unfold create_assessment, to_object_id. rewrite H. split; reflexivity.
Qed.

(** ** The leaderboard *)

Lemma add_fields_pct_ok (a : AssessmentDoc) : add_fields_pct a = Ok (leaderboard_pct a).
Proof.
  unfold add_fields_pct, leaderboard_pct, mongo_divide, mongo_gt0, get.
  destruct (doc_total a) as [t|].
  - destruct (Qltb 0 t) eqn:E.
    + apply Qltb_lt in E.
      destruct (Qeq_bool t 0) eqn:Z.
      * apply Qeq_bool_iff in Z. rewrite Z in E. now apply Qlt_irrefl in E.
      * destruct (doc_score a); reflexivity.
    + destruct (doc_score a); reflexivity.
  - destruct (doc_score a); reflexivity.
Qed.

Lemma for_each_add_fields (docs : list AssessmentDoc) :
  forall acc,
    for_each (fun acc a => pct <- add_fields_pct a ;; Ok (acc ++ [(a, pct)])) docs acc
    = Ok (acc ++ map (fun a => (a, leaderboard_pct a)) docs).
Proof.
  induction docs as [|a docs IH]; intro acc; cbn [for_each map].
  - now rewrite app_nil_r.
  - rewrite add_fields_pct_ok. cbn [bind]. rewrite IH. now rewrite <- app_assoc.
Qed.

Lemma aggregate_ok (db : option Database) (rows : list GroupRow) :
  aggregate db = Ok rows ->
  exists d, db = Some d /\ rows = ranked (assessment d).
Proof.
  unfold aggregate, on_collection. destruct db as [d|]; [|discriminate].
  destruct (fails d OpAggregate); [discriminate|]. cbn [bind].
  rewrite for_each_add_fields. cbn [bind app]. intro H. injection H as <-.
  now exists d.
Qed.

Lemma avg_leb_total (x y : option Q) : avg_leb x y = false -> avg_leb y x = true.
Proof.
  destruct x as [a|], y as [b|]; simpl; try congruence.
  intro H. apply Qle_bool_iff. apply Qlt_le_weak, Qnot_le_lt.
  intro Hle. apply Qle_bool_iff in Hle. congruence.
Qed.

Lemma avg_leb_trans (x y z : option Q) :
  avg_leb x y = true -> avg_leb y z = true -> avg_leb x z = true.
Proof.
  destruct x as [a|], y as [b|], z as [c|]; simpl; try congruence.
  rewrite !Qle_bool_iff. apply Qle_trans.
Qed.

Lemma insert_desc_In (r x : GroupRow) (rows : list GroupRow) :
  In x (insert_desc r rows) <-> x = r \/ In x rows.
Proof.
  induction rows as [|h rest IH]; simpl.
  - intuition.
  - destruct (avg_leb (avgPct r) (avgPct h)); simpl; rewrite ?IH; intuition.
Qed.

Lemma insert_desc_sorted (r : GroupRow) (rows : list GroupRow) :
  StronglySorted desc rows -> StronglySorted desc (insert_desc r rows).
Proof.
  induction rows as [|h rest IH]; intro H; simpl.
  - repeat constructor.
  - apply StronglySorted_inv in H as [Hrest Hh].
    destruct (avg_leb (avgPct r) (avgPct h)) eqn:E.
    + constructor; [now apply IH|].
      apply Forall_forall. intros x Hx. apply insert_desc_In in Hx as [-> | Hx].
      * exact E.
      * rewrite Forall_forall in Hh. now apply Hh.
    + apply avg_leb_total in E.
      constructor; [now constructor|].
      constructor; [exact E|].
      apply Forall_forall. intros x Hx. rewrite Forall_forall in Hh.
      unfold desc. eapply avg_leb_trans; [exact (Hh x Hx) | exact E].
Qed.

Lemma sort_avgPct_desc_sorted (rows : list GroupRow) :
  StronglySorted desc (sort_avgPct_desc rows).
Proof.
  induction rows as [|r rows IH]; simpl; [constructor|].
  now apply insert_desc_sorted.
Qed.

Lemma sort_avgPct_desc_In (x : GroupRow) (rows : list GroupRow) :
  In x (sort_avgPct_desc rows) <-> In x rows.
Proof.
  induction rows as [|r rows IH]; simpl; [tauto|].
  rewrite insert_desc_In, IH. intuition.
Qed.






Lemma map_filter_with_pct (docs : list AssessmentDoc) (k : option string) :
  map snd (filter (fun d : AssessmentDoc * option Q => key_eqb (doc_student_id (fst d)) k)
                  (map (fun a => (a, leaderboard_pct a)) docs))
  = leaderboard_group docs k.
Proof.
  unfold leaderboard_group. induction docs as [|a docs IH]; [reflexivity|].
  cbn [map filter fst]. destruct (key_eqb (doc_student_id a) k); cbn [map snd];
    now rewrite IH.
Qed.


Lemma attach_name_same (db : option Database) (r : GroupRow) (t : TopStudent) :
  attach_name db r = Ok t -> same_row r t.
Proof.
  unfold attach_name.
  destruct (to_object_id (_id r)); [|discriminate]. cbn [bind].
  destruct (find_one_student db a); [|discriminate]. cbn [bind].
  intro H. injection H as <-. repeat split.
Qed.

Lemma for_each_attach (db : option Database) (rows : list GroupRow) :
  forall acc ts,
    for_each (fun acc t => t' <- attach_name db t ;; Ok (acc ++ [t'])) rows acc = Ok ts ->
    exists ts', ts = acc ++ ts' /\ Forall2 same_row rows ts'.
Proof.
  induction rows as [|r rows IH]; intros acc ts; cbn [for_each].
  - intro H. injection H as <-. exists []. split; [now rewrite app_nil_r | constructor].
  - destruct (attach_name db r) as [t|] eqn:E; [|discriminate]. cbn [bind].
    intro H. apply IH in H as (ts' & -> & HF).
    exists (t :: ts'). split; [now rewrite <- app_assoc|].
    constructor; [now apply attach_name_same in E | exact HF].
Qed.

Lemma for_each_attach_raises (db : option Database) (rows : list GroupRow)
  (t : GroupRow) (e : exn) :
  In t rows -> attach_name db t = Raise e ->
  forall acc, exists e',
    for_each (fun acc t => t' <- attach_name db t ;; Ok (acc ++ [t'])) rows acc = Raise e'.
Proof.
  induction rows as [|r rows IH]; intros Hin Hr acc; [destruct Hin|].
  cbn [for_each]. destruct (attach_name db r) as [t'|e0] eqn:E.
  - cbn [bind]. destruct Hin as [-> | Hin]; [congruence|]. now apply IH.
  - exists e0. reflexivity.
Qed.


Lemma same_row_In (rows : list GroupRow) (ts : list TopStudent) (t : TopStudent) :
  Forall2 same_row rows ts -> In t ts -> exists r, In r rows /\ same_row r t.
Proof.
  induction 1 as [|r t' rows ts H _ IH]; simpl; [tauto|].
  intros [<- | Hin]; [exists r; auto|].
  destruct (IH Hin) as (r' & ? & ?). exists r'. auto.
Qed.

Lemma top_students_try_ok (db : option Database) (ts : list TopStudent) :
  top_students_try db = Ok ts ->
  exists d, db = Some d /\ Forall2 same_row (ranked (assessment d)) ts.
Proof.
  unfold top_students_try. destruct (aggregate db) as [rows|] eqn:E; [|discriminate].
  cbn [bind]. intro H. apply aggregate_ok in E as (d & -> & ->).
  apply for_each_attach in H as (ts' & -> & HF). now exists d.
Qed.




(** C9.  When the aggregation raises, or the lookup of the name of one of
    its rows raises, the overview still returns: its leaderboard is empty
    and its statistics are those of [compute_stats]. *)
Theorem leaderboard_failure_is_swallowed (db : option Database)
  (assessments : list AssessmentDoc) (st : Stats) :
  get_documents_assessment db None = Ok assessments ->
  compute_stats assessments = Ok st ->
  ((exists e, aggregate db = Raise e)
   \/ (exists rows t e, aggregate db = Ok rows /\ In t rows /\ attach_name db t = Raise e)) ->
  overall_overview db = Ok {| stats := st; top_students := [] |}.
Proof.
  intros Hdocs Hst Hfail. unfold overall_overview. rewrite Hdocs. cbn [bind].
  rewrite Hst. cbn [bind].
  assert (Hraise : exists e, top_students_try db = Raise e).
  { unfold top_students_try. destruct Hfail as [(e & ->) | (rows & t & e & -> & Hin & Hr)].
    - now exists e.
    - cbn [bind]. exact (for_each_attach_raises db rows t e Hin Hr []). }
  destruct Hraise as (e & ->). reflexivity.
Qed.

(** ** The rounding is to the nearest hundredth *)

Lemma round_half_even_close (y : Q) :
  - (1 # 2) <= inject_Z (round_half_even y) - y <= 1 # 2.
Proof.
  pose proof (Qfloor_le y) as Hlo. pose proof (Qlt_floor y) as Hhi.
  rewrite inject_Z_plus in Hhi. change (inject_Z 1) with 1 in Hhi.
  unfold round_half_even.
  destruct (Qcompare_spec (y - inject_Z (Qfloor y)) (1 # 2)) as [H | H | H].
  - destruct (Z.even (Qfloor y)); rewrite ?inject_Z_plus;
      change (inject_Z 1) with 1; lra.
  - lra.
  - rewrite inject_Z_plus. change (inject_Z 1) with 1. lra.
Qed.

Lemma py_round2_close (x : Q) : Qabs (py_round2 x - x) <= 1 # 200.
Proof.
  apply Qabs_Qle_condition. pose proof (round_half_even_close (x * 100)) as H.
  unfold py_round2. set (n := inject_Z (round_half_even (x * 100))) in *.
  unfold Qdiv. change (/ 100) with (1 # 100). lra.
Qed.

(** ** The properties at concrete inputs *)

Example compute_stats_math :
  compute_stats [ex_math50; ex_math80]
  = Ok {| overall_average := 6500 # 100;
          per_subject_average := [("Math", 6500 # 100)];
          best_subject := Some "Math";
          worst_subject := Some "Math";
          assessments_count := 2 |}.
Proof. vm_compute. reflexivity. Qed.

Example missing_subject_is_unknown :
  compute_stats [{| doc_student_id := None; doc_subject := None;
                    doc_score := Some 3; doc_total := Some 4 |}]
  = Ok {| overall_average := 7500 # 100;
          per_subject_average := [("Unknown", 7500 # 100)];
          best_subject := Some "Unknown";
          worst_subject := Some "Unknown";
          assessments_count := 1 |}.
Proof. vm_compute. reflexivity. Qed.


Example best_subject_other_order :
  exists st,
    compute_stats [ex_math50; ex_math80; ex_sci100] = Ok st /\
    best_subject st = Some "Science" /\ worst_subject st = Some "Math".
Proof.
  eexists. split; [vm_compute; reflexivity | split; reflexivity].
Qed.


Lemma unknown_student_is_not_found_witness :
  fst (create_assessment (Some ex_db) ex_unknown_request)
  = Raise (HTTPException 404 "Student not found")
  /\ snd (create_assessment (Some ex_db) ex_unknown_request) = Some ex_db.
Proof.
  apply (unknown_student_is_not_found (Some ex_db) ex_unknown_request).
  intros (d & s & oid & E & Hin & Hoid & Hs).
  injection E as <-. vm_compute in Hoid. injection Hoid as <-.
  simpl in Hin.
  repeat (destruct Hin as [<- | Hin]; [discriminate Hs|]).
  exact Hin.
Defined.


Lemma leaderboard_failure_is_swallowed_witness :
  exists st,
    compute_stats (assessment ex_db) = Ok st /\
    overall_overview (Some ex_db_no_aggregate) = Ok {| stats := st; top_students := [] |}.
Proof.
  eexists. split; [vm_compute; reflexivity|].
  apply (leaderboard_failure_is_swallowed (Some ex_db_no_aggregate) (assessment ex_db)).
  - reflexivity.
  - vm_compute. reflexivity.
  - left. exists PyMongoError. reflexivity.
Defined.

(** A leaderboard row whose [student_id] is malformed: the 400 of
    [to_object_id] is caught and the whole leaderboard is dropped. *)
Example malformed_row_empties_leaderboard :
  let db := Some {| student := student ex_db;
                    assessment := mk_doc "bogus" "Math" 1 2 :: assessment ex_db;
                    next_oid := 100; fails := no_failure |} in
  exists ov, overall_overview db = Ok ov /\ top_students ov = []
             /\ assessments_count (stats ov) = 7%Z.
Proof.
  eexists. split; [vm_compute; reflexivity | split; reflexivity].
Qed.

(** * Further properties of the code *)

(** ** Sums and means of bounded lists *)










(** ** The fields of the result of [compute_stats] *)

Lemma compute_stats_fields (l : list AssessmentDoc) (st : Stats) :
  compute_stats l = Ok st ->
  overall_average st = py_round2 (overall_of l)
  /\ per_subject_average st
     = map (fun kv => (fst kv, py_round2 (snd kv))) (per_subject_of l)
  /\ assessments_count st = Z.of_nat (List.length l)
  /\ is_argmax (per_subject_of l) (best_subject st)
  /\ is_argmin (per_subject_of l) (worst_subject st).
Proof.
  intro H. destruct (compute_stats_ok l) as (b & w & H' & Hmax & Hmin).
  rewrite H' in H. injection H as <-. cbn. auto.
Qed.




(** ** Percentages of records within the schema's ranges *)





(** ** One subject only *)

Lemma grouped_from_single (s : string) (l : list AssessmentDoc) :
  Forall (fun a => subject_of a = s) l ->
  forall v, grouped_from [(s, v)] l = [(s, v ++ map pct_of l)].
Proof.
  induction 1 as [|a l Ha _ IH]; intro v.
  - cbn. now rewrite app_nil_r.
  - unfold grouped_from. cbn [fold_left setdefault_append]. rewrite Ha.
    rewrite key_eqb_refl. fold (grouped_from [(s, v ++ [pct_of a])] l).
    rewrite IH. cbn [map]. now rewrite <- app_assoc.
Qed.

Lemma per_subject_of_single (s : string) (l : list AssessmentDoc) :
  l <> [] -> Forall (fun a => subject_of a = s) l ->
  per_subject_of l = [(s, mean (map pct_of l))].
Proof.
  intros Hne H. destruct l as [|a l]; [congruence|].
  inversion H as [|? ? Ha Hl]; subst.
  unfold per_subject_of, grouped_from. cbn [fold_left setdefault_append].
  fold (grouped_from [(subject_of a, [pct_of a])] l).
  rewrite (grouped_from_single _ l Hl). reflexivity.
Qed.

(** X2.  When all the records have the same subject, the report has that one
    subject, its average is the overall average, and it is both the best
    and the worst subject. *)
Theorem single_subject_report (l : list AssessmentDoc) (st : Stats) (s : string) :
  l <> [] ->
  Forall (fun a => subject_of a = s) l ->
  compute_stats l = Ok st ->
  per_subject_average st = [(s, overall_average st)]
  /\ best_subject st = Some s /\ worst_subject st = Some s.
Proof.
  intros Hne Hs H.
  pose proof (compute_stats_fields l st H) as (Ho & Hp & _ & Hmax & Hmin).
  rewrite (per_subject_of_single s l Hne Hs) in Hp, Hmax, Hmin.
  assert (Hov : overall_of l = mean (map pct_of l))
    by (destruct l; [congruence | reflexivity]).
  split; [|split].
  - rewrite Hp, Ho, Hov. reflexivity.
  - destruct (best_subject st) as [b|]; [|discriminate Hmax].
    destruct Hmax as (v & Hv & _). cbn in Hv.
    destruct (String.eqb_spec s b); [now subst | discriminate].
  - destruct (worst_subject st) as [w|]; [|discriminate Hmin].
    destruct Hmin as (v & Hv & _). cbn in Hv.
    destruct (String.eqb_spec s w); [now subst | discriminate].
Qed.

(** ** The order of the keys of a grouping *)

Lemma filter_filter_and {A : Type} (f g : A -> bool) (l : list A) :
  filter f (filter g l) = filter (fun x => f x && g x) l.
Proof.
  induction l as [|x l IH]; [reflexivity|]. cbn [filter].
  destruct (g x); cbn [filter]; rewrite IH, ?andb_true_r, ?andb_false_r;
    reflexivity.
Qed.

Section KeyOrder.
Context {K : Type} `{HK : Hashable K}.

Lemma notin_filter_seen (D : list K) (k : K) (l : list K) :
  existsb (key_eqb k) D = true ->
  filter (notin D) (filter (fun y => negb (key_eqb k y)) l) = filter (notin D) l.
Proof.
  intro Hk. rewrite filter_filter_and. apply filter_ext. intro y.
  unfold notin. destruct (key_eqb_spec k y) as [<- | _]; cbn [negb].
  - rewrite Hk. reflexivity.
  - apply andb_true_r.
Qed.

Lemma notin_filter_new (D : list K) (k : K) (l : list K) :
  filter (notin (D ++ [k])) l
  = filter (notin D) (filter (fun y => negb (key_eqb k y)) l).
Proof.
  rewrite filter_filter_and. apply filter_ext. intro y.
  unfold notin. rewrite existsb_app. cbn [existsb].
  rewrite orb_false_r, negb_orb, (key_eqb_sym y k). reflexivity.
Qed.

Lemma keys_fold_setdefault_append {A V : Type} (kf : A -> K) (vf : A -> V)
  (l : list A) :
  forall d : dict K (list V),
    keys (fold_left (fun g a => setdefault_append g (kf a) (vf a)) l d)
    = keys d ++ filter (notin (keys d)) (first_occurrences (map kf l)).
Proof.
  induction l as [|a l IH]; intro d.
  - cbn. now rewrite app_nil_r.
  - cbn [fold_left map first_occurrences filter].
    rewrite IH, keys_setdefault_append.
    change (notin (keys d) (kf a)) with (negb (existsb (key_eqb (kf a)) (keys d))).
    destruct (existsb (key_eqb (kf a)) (keys d)) eqn:E; cbn [negb].
    + now rewrite notin_filter_seen.
    + rewrite <- app_assoc. cbn [app]. now rewrite notin_filter_new.
Qed.

Lemma keys_grouping {A V : Type} (kf : A -> K) (vf : A -> V) (l : list A) :
  keys (fold_left (fun g a => setdefault_append g (kf a) (vf a)) l
                  ([] : dict K (list V)))
  = first_occurrences (map kf l).
Proof.
  rewrite keys_fold_setdefault_append. cbn [keys map app].
  induction (first_occurrences (map kf l)) as [|x r IH]; [reflexivity|].
  cbn. now rewrite IH.
Qed.
End KeyOrder.

(** X3.  The subjects of [per_subject_average] are the distinct subjects of
    the input, each once, in the order in which they first appear. *)
Theorem subjects_in_order_of_first_appearance (l : list AssessmentDoc) (st : Stats) :
  compute_stats l = Ok st ->
  keys (per_subject_average st) = first_occurrences (map subject_of l).
Proof.
  intro H. apply compute_stats_fields in H as (_ & Hp & _).
  rewrite Hp. unfold per_subject_of. rewrite !keys_map_values.
  exact (keys_grouping subject_of pct_of l).
Qed.

(** ** The two percentage formulas *)

Lemma Qdiv_1_r (s : Q) : s / 1 == s.
Proof. field. Qed.

(** X5.  For a record with a score, the percentage of [compute_stats]
    ([total or 1] as divisor) and the percentage of the leaderboard pipeline
    ([total > 0 ? total : 1]) are the same number when the total is absent
    or not negative; they differ when the total is negative and the score is
    not 0. *)
Theorem percentage_formulas_agree (a : AssessmentDoc) (s : Q) :
  doc_score a = Some s ->
  (match doc_total a with Some t => 0 <= t | None => True end ->
   exists p, percentage a = Ok p /\ add_fields_pct a = Ok (Some p))
  /\ (forall t, doc_total a = Some t -> t < 0 -> ~ s == 0 ->
      exists p q, percentage a = Ok p /\ add_fields_pct a = Ok (Some q) /\ ~ p == q).
Proof.
  intro Hs. rewrite percentage_ok, add_fields_pct_ok.
  unfold pct_of, leaderboard_pct, effective_total, score_of. rewrite Hs. split.
  - intro Ht. eexists. split; [reflexivity|].
    destruct (doc_total a) as [t|]; [|reflexivity].
    destruct (Qeq_bool t 0) eqn:Z.
    + apply Qeq_bool_iff in Z.
      destruct (Qltb 0 t) eqn:L; [|reflexivity].
      apply Qltb_lt in L. rewrite Z in L. now apply Qlt_irrefl in L.
    + destruct (Qltb 0 t) eqn:L; [reflexivity|].
      apply Qltb_ge in L. apply Qeq_bool_neq in Z. exfalso. apply Z.
      now apply Qle_antisym.
  - intros t Et Hneg Hs0. rewrite Et.
    assert (Z : Qeq_bool t 0 = false).
    { destruct (Qeq_bool t 0) eqn:Z; [|reflexivity].
      apply Qeq_bool_iff in Z. rewrite Z in Hneg. now apply Qlt_irrefl in Hneg. }
    assert (L : Qltb 0 t = false) by (apply Qltb_ge; now apply Qlt_le_weak).
    rewrite Z, L. do 2 eexists. split; [reflexivity|]. split; [reflexivity|].
    intro E. rewrite Qdiv_1_r in E.
    assert (Hx : s / t == s) by lra.
    assert (Ht0 : ~ t == 0) by (intro C; rewrite C in Hneg; now apply Qlt_irrefl in Hneg).
    assert (Hm : s / t * t == s) by (field; exact Ht0).
    rewrite Hx in Hm.
    assert (Hz : s * (t - 1) == 0) by lra.
    apply Qmult_integral in Hz as [Hz | Hz]; [now apply Hs0 | lra].
Qed.

(** ** Statistics of one student *)

Lemma filter_none {A : Type} (f : A -> bool) (l : list A) :
  (forall x, In x l -> f x = false) -> filter f l = [].
Proof.
  induction l as [|x l IH]; intro H; [reflexivity|]. cbn [filter].
  rewrite (H x (or_introl eq_refl)). apply IH. intros y Hy. apply H. now right.
Qed.

(** X6.  The statistics of a student are asked for with any string: when no
    stored assessment carries it as [student_id] (an unknown student, or a
    string that is no identifier at all), the answer is the empty report
    and not an error. *)
Theorem stats_without_assessments_are_empty (d : Database) (sid : string) :
  fails d OpFind = false ->
  (forall a, In a (assessment d) -> doc_student_id a <> Some sid) ->
  exists st,
    get_student_stats (Some d) sid = Ok st /\
    assessments_count st = 0%Z /\ overall_average st == 0 /\
    per_subject_average st = [] /\
    best_subject st = None /\ worst_subject st = None.
Proof.
  intros Hup Hnone. unfold get_student_stats, get_documents_assessment.
  rewrite Hup. cbn [bind]. rewrite filter_none.
  - eexists. split; [reflexivity|]. cbn. repeat split.
  - intros a Ha. destruct (doc_student_id a) as [s|] eqn:E; [|reflexivity].
    destruct (String.eqb_spec s sid) as [-> | _]; [|reflexivity].
    exfalso. now apply (Hnone a Ha).
Qed.

(** ** Outcomes of [create_assessment] *)

Lemma find_resolves (d : Database) (sid : string) (oid : ObjectId) (s : StudentDoc) :
  bson_ObjectId (Some sid) = Ok oid ->
  find (fun s => oid_eqb (student_oid s) oid) (student d) = Some s ->
  resolves (Some d) sid.
Proof.
  intros Hoid F. apply find_some in F as [Hin Heq].
  exists d, s, oid. repeat split; auto using oid_eqb_eq.
Qed.

Lemma create_assessment_cases (db : option Database) (a : Schemas.Assessment) :
  (exists d,
      db = Some d /\ resolves db (Schemas.student_id a) /\
      create_assessment db a
      = (Ok (oid_str (next_oid d)),
         Some {| student := student d;
                 assessment := assessment d ++ [assessment_doc a];
                 next_oid := N.succ (next_oid d);
                 fails := fails d |}))
  \/ create_assessment db a = (Raise (HTTPException 404 "Student not found"), db)
  \/ (resolves db (Schemas.student_id a)
      /\ create_assessment db a = (Raise PyMongoError, db)).
Proof.
  unfold create_assessment, to_object_id.
  destruct (bson_ObjectId (Some (Schemas.student_id a))) as [oid|e] eqn:E;
    [|right; left; reflexivity].
  cbn [bind]. unfold find_one_student, on_collection.
  destruct db as [d|]; [|right; left; reflexivity].
  destruct (fails d (OpFindOne oid)); [right; left; reflexivity|].
  destruct (find _ (student d)) as [s|] eqn:F; [|right; left; reflexivity].
  pose proof (find_resolves d _ oid s E F) as R.
  unfold create_document_assessment.
  destruct (fails d OpInsert).
  - right. right. split; [exact R | reflexivity].
  - left. exists d. repeat split. exact R.
Qed.

(** X7.  [create_assessment] has three outcomes and no other: it returns an
    identifier and the store has gained exactly the request's record at the
    end of the assessments, students and failure behaviour untouched; or it
    raises HTTP 404 and the store is unchanged; or the insertion fails for a
    student that exists and the store is unchanged.  It never raises HTTP
    400 and never leaves a partial write. *)
Theorem create_assessment_outcomes (db : option Database) (a : Schemas.Assessment) :
  (exists d d' id,
      db = Some d /\ resolves db (Schemas.student_id a) /\
      create_assessment db a = (Ok id, Some d') /\
      student d' = student d /\
      assessment d' = assessment d ++ [assessment_doc a] /\
      fails d' = fails d)
  \/ create_assessment db a = (Raise (HTTPException 404 "Student not found"), db)
  \/ (resolves db (Schemas.student_id a)
      /\ create_assessment db a = (Raise PyMongoError, db)).
Proof.
  destruct (create_assessment_cases db a) as [(d & Hd & R & H) | [H | H]].
  - left. do 3 eexists. split; [exact Hd|]. split; [exact R|].
    split; [exact H|]. repeat split.
  - right. left. exact H.
  - right. right. exact H.
Qed.

(** X8.  When the lookup of the student cannot be made (there is no database
    handle, or the find raises), the request is answered HTTP 404 "Student
    not found" and nothing is stored, whether or not the student exists. *)
Theorem lookup_failure_is_not_found (db : option Database) (a : Schemas.Assessment) :
  (db = None
   \/ exists d oid,
        db = Some d /\ bson_ObjectId (Some (Schemas.student_id a)) = Ok oid /\
        fails d (OpFindOne oid) = true) ->
  create_assessment db a = (Raise (HTTPException 404 "Student not found"), db).
Proof.
  intros [-> | (d & oid & -> & Hoid & Hf)]; unfold create_assessment, to_object_id.
  - destruct (bson_ObjectId _); reflexivity.
  - rewrite Hoid. cbn [bind]. unfold find_one_student, on_collection.
    rewrite Hf. reflexivity.
Qed.

(** ** An assessment that was created is counted *)

Lemma filter_student_app (sid : string) (docs : list AssessmentDoc) (a : Schemas.Assessment) :
  filter (fun x => match doc_student_id x with
                   | Some s => String.eqb s sid
                   | None => false
                   end) (docs ++ [assessment_doc a])
  = filter (fun x => match doc_student_id x with
                     | Some s => String.eqb s sid
                     | None => false
                     end) docs
    ++ (if String.eqb (Schemas.student_id a) sid then [assessment_doc a] else []).
Proof.
  rewrite filter_app. cbn [filter assessment_doc doc_student_id].
  destruct (String.eqb (Schemas.student_id a) sid); reflexivity.
Qed.

(** X9.  After [create_assessment] has returned an identifier, the statistics
    of the request's student count one assessment more than before, and the
    statistics of every other student are what they were. *)
Theorem created_assessment_is_counted (d : Database) (a : Schemas.Assessment)
  (id : string) (db' : option Database) :
  create_assessment (Some d) a = (Ok id, db') ->
  fails d OpFind = false ->
  (exists st st',
      get_student_stats (Some d) (Schemas.student_id a) = Ok st /\
      get_student_stats db' (Schemas.student_id a) = Ok st' /\
      assessments_count st' = (assessments_count st + 1)%Z)
  /\ forall other, other <> Schemas.student_id a ->
       get_student_stats db' other = get_student_stats (Some d) other.
Proof.
  intros H Hup.
  destruct (create_assessment_cases (Some d) a) as [(d0 & Hd & _ & H') | [H' | [_ H']]];
    try (rewrite H' in H; discriminate H).
  injection Hd as <-. rewrite H' in H. injection H as _ <-.
  unfold get_student_stats, get_documents_assessment. cbn [fails assessment].
  rewrite Hup. cbn [bind]. split.
  - rewrite filter_student_app, String.eqb_refl.
    set (mine := filter _ (assessment d)).
    destruct (compute_stats_ok mine) as (b & w & Hst & _).
    destruct (compute_stats_ok (mine ++ [assessment_doc a])) as (b' & w' & Hst' & _).
    do 2 eexists. split; [exact Hst|]. split; [exact Hst'|].
    cbn [assessments_count]. rewrite length_app. cbn [List.length]. lia.
  - intros other Hother. rewrite filter_student_app.
    destruct (String.eqb_spec (Schemas.student_id a) other) as [E | _];
      [now symmetry in E|].
    now rewrite app_nil_r.
Qed.

(** ** When the overview raises *)


(** ** The rows of the leaderboard pipeline *)

Section FirstOccurrences.
Context {K : Type} `{HK : Hashable K}.

Lemma first_occurrences_In (x : K) (l : list K) :
  In x (first_occurrences l) <-> In x l.
Proof.
  induction l as [|y l IH]; cbn [first_occurrences]; [tauto|].
  cbn [In]. rewrite filter_In, IH. split.
  - intros [E | [H _]]; auto.
  - intros [E | H]; [now left|].
    destruct (key_eqb_spec y x) as [E | N]; [now left | right; auto].
Qed.

Lemma first_occurrences_NoDup (l : list K) : NoDup (first_occurrences l).
Proof.
  induction l as [|y l IH]; cbn [first_occurrences]; constructor.
  - rewrite filter_In. intros [_ H]. now rewrite key_eqb_refl in H.
  - now apply NoDup_filter.
Qed.
End FirstOccurrences.

Lemma group_rows_ids (docs : list AssessmentDoc) :
  map _id (group_by_student (with_pct docs))
  = first_occurrences (map doc_student_id docs).
Proof.
  unfold group_by_student. rewrite map_map. cbn [_id].
  change (keys (groups_of docs) = first_occurrences (map doc_student_id docs)).
  unfold groups_of.
  rewrite (keys_grouping (fun d : AssessmentDoc * option Q => doc_student_id (fst d)) snd).
  unfold with_pct. rewrite map_map. reflexivity.
Qed.

Lemma group_rows_spec (docs : list AssessmentDoc) (r : GroupRow) :
  In r (group_by_student (with_pct docs)) ->
  avgPct r = mongo_avg (leaderboard_group docs (_id r))
  /\ count r = Z.of_nat (List.length (leaderboard_group docs (_id r))).
Proof.
  unfold group_by_student. intro H. apply in_map_iff in H as ([k v] & <- & Hin).
  cbn [_id avgPct count fst snd].
  apply dict_get_item in Hin;
    [|apply fold_setdefault_append_NoDup; constructor].
  rewrite (dict_get_fold_setdefault_append
             (fun d : AssessmentDoc * option Q => doc_student_id (fst d)) snd) in Hin.
  unfold with_pct in Hin. rewrite map_filter_with_pct in Hin. cbn [dict_get] in Hin.
  destruct (leaderboard_group docs k); [discriminate|].
  injection Hin as <-. split; reflexivity.
Qed.

Lemma insert_desc_perm (r : GroupRow) (rows : list GroupRow) :
  Permutation (r :: rows) (insert_desc r rows).
Proof.
  induction rows as [|h rest IH]; cbn [insert_desc]; [reflexivity|].
  destruct (avg_leb (avgPct r) (avgPct h)); [|reflexivity].
  rewrite perm_swap. now apply perm_skip.
Qed.

Lemma sort_avgPct_desc_perm (rows : list GroupRow) :
  Permutation rows (sort_avgPct_desc rows).
Proof.
  induction rows as [|r rows IH]; cbn; [constructor|].
  rewrite <- insert_desc_perm. now apply perm_skip.
Qed.

Lemma sorted_rows_ids_NoDup (docs : list AssessmentDoc) :
  NoDup (map _id (sort_avgPct_desc (group_by_student (with_pct docs)))).
Proof.
  eapply Permutation_NoDup.
  - apply Permutation_map, sort_avgPct_desc_perm.
  - rewrite group_rows_ids. apply first_occurrences_NoDup.
Qed.

Lemma ranked_ids_NoDup (docs : list AssessmentDoc) : NoDup (map _id (ranked docs)).
Proof.
  unfold ranked. fold (with_pct docs). rewrite <- firstn_map.
  pose proof (sorted_rows_ids_NoDup docs) as H.
  rewrite <- (firstn_skipn 5) in H. now apply NoDup_app_remove_r in H.
Qed.

Lemma ranked_length_min (docs : list AssessmentDoc) :
  List.length (ranked docs)
  = Nat.min 5 (List.length (first_occurrences (map doc_student_id docs))).
Proof.
  unfold ranked. fold (with_pct docs). rewrite length_firstn.
  rewrite <- (Permutation_length (sort_avgPct_desc_perm _)).
  rewrite <- group_rows_ids, length_map. reflexivity.
Qed.

Lemma same_row_ids (rows : list GroupRow) (ts : list TopStudent) :
  Forall2 same_row rows ts -> map top_student_id ts = map _id rows.
Proof.
  induction 1 as [|r t rows ts (H & _) _ IH]; simpl; congruence.
Qed.

Lemma overview_top (db : option Database) (ov : Overview) :
  overall_overview db = Ok ov ->
  top_students ov = [] \/
  exists d, db = Some d /\ Forall2 same_row (ranked (assessment d)) (top_students ov).
Proof.
  unfold overall_overview.
  destruct (get_documents_assessment db None) as [docs|]; [|discriminate]. cbn [bind].
  destruct (compute_stats docs) as [st|]; [|discriminate]. cbn [bind].
  intro H. injection H as <-. cbn [top_students].
  destruct (top_students_try db) as [ts|e] eqn:E; [|now left].
  right. now apply top_students_try_ok.
Qed.

(** X11.  No student is listed twice on the leaderboard, and a leaderboard
    that is not empty has as many entries as there are distinct
    [student_id]s among the stored assessments, up to 5. *)
Theorem leaderboard_lists_each_student_once (db : option Database) (ov : Overview) :
  overall_overview db = Ok ov ->
  NoDup (map top_student_id (top_students ov))
  /\ (top_students ov <> [] ->
      exists d, db = Some d /\
        List.length (top_students ov)
        = Nat.min 5 (List.length (first_occurrences
                                    (map doc_student_id (assessment d))))).
Proof.
  intro H. destruct (overview_top db ov H) as [-> | (d & -> & HF)].
  - split; [constructor | congruence].
  - split.
    + rewrite (same_row_ids _ _ HF). apply ranked_ids_NoDup.
    + intros _. exists d. split; [reflexivity|].
      rewrite <- (Forall2_length HF). apply ranked_length_min.
Qed.

(** ** Who is left out of the leaderboard *)

Lemma StronglySorted_app_inv {A : Type} (R : A -> A -> Prop) (l1 l2 : list A) :
  StronglySorted R (l1 ++ l2) ->
  forall x y, In x l1 -> In y l2 -> R x y.
Proof.
  induction l1 as [|a l1 IH]; cbn [app]; intros H x y Hx Hy; [destruct Hx|].
  apply StronglySorted_inv in H as [Hs Ha]. destruct Hx as [<- | Hx].
  - rewrite Forall_forall in Ha. apply Ha, in_or_app. now right.
  - now apply IH.
Qed.

Lemma group_row_exists (docs : list AssessmentDoc) (a : AssessmentDoc) :
  In a docs ->
  exists r, In r (group_by_student (with_pct docs)) /\ _id r = doc_student_id a.
Proof.
  intro Ha.
  assert (H : In (doc_student_id a) (map _id (group_by_student (with_pct docs)))).
  { rewrite group_rows_ids. apply first_occurrences_In. now apply in_map. }
  apply in_map_iff in H as (r & Hr & Hin). now exists r.
Qed.

Lemma same_row_covers (rows : list GroupRow) (ts : list TopStudent) (r : GroupRow) :
  Forall2 same_row rows ts -> In r rows -> exists t, In t ts /\ same_row r t.
Proof.
  induction 1 as [|r' t rows ts H _ IH]; simpl; [tauto|].
  intros [<- | Hin]; [exists t; auto|].
  destruct (IH Hin) as (t' & ? & ?). exists t'. auto.
Qed.

(** X12.  The leaderboard is the top of the ranking: a student with stored
    assessments who is not listed has an average that is not above the
    average of any listed student. *)
Theorem unlisted_students_are_not_above (d : Database) (ov : Overview) :
  overall_overview (Some d) = Ok ov ->
  forall t a,
    In t (top_students ov) -> In a (assessment d) ->
    (forall u, In u (top_students ov) -> top_student_id u <> doc_student_id a) ->
    avg_leb (mongo_avg (leaderboard_group (assessment d) (doc_student_id a)))
            (top_avgPct t) = true.
Proof.
  intros H t a Ht Ha Hout.
  destruct (overview_top (Some d) ov H) as [E | (d' & Ed & HF)];
    [rewrite E in Ht; destruct Ht|].
  injection Ed as <-.
  destruct (same_row_In _ _ t HF Ht) as (r & Hr & _ & Havg & _).
  destruct (group_row_exists (assessment d) a Ha) as (ra & Hra & Hid).
  pose proof (group_rows_spec _ ra Hra) as [Hra_avg _].
  rewrite Havg, <- Hid, <- Hra_avg.
  set (sorted := sort_avgPct_desc (group_by_student (with_pct (assessment d)))) in *.
  assert (Hsorted : StronglySorted desc (firstn 5 sorted ++ skipn 5 sorted))
    by (rewrite firstn_skipn; apply sort_avgPct_desc_sorted).
  assert (Hin : In ra (firstn 5 sorted ++ skipn 5 sorted))
    by (rewrite firstn_skipn; now apply sort_avgPct_desc_In).
  apply in_app_or in Hin as [Hin | Hin].
  - exfalso. destruct (same_row_covers _ _ ra HF Hin) as (u & Hu & Hu_id & _).
    apply (Hout u Hu). congruence.
  - exact (StronglySorted_app_inv desc _ _ Hsorted r ra Hr Hin).
Qed.

(** ** The names on the leaderboard *)

Lemma attach_name_name (db : option Database) (r : GroupRow) (t : TopStudent) :
  attach_name db r = Ok t ->
  exists d oid,
    db = Some d /\ bson_ObjectId (_id r) = Ok oid /\ top_student_id t = _id r /\
    student_name t
    = match find (fun s => oid_eqb (student_oid s) oid) (student d) with
      | Some s => student_doc_name s
      | None => None
      end.
Proof.
  unfold attach_name, to_object_id.
  destruct (bson_ObjectId (_id r)) as [oid|] eqn:E; [|discriminate]. cbn [bind].
  unfold find_one_student, on_collection.
  destruct db as [d|]; [|discriminate].
  destruct (fails d (OpFindOne oid)); [discriminate|]. cbn [bind].
  intro H. injection H as <-. exists d, oid. repeat split.
Qed.

Lemma for_each_attach_each (db : option Database) (rows : list GroupRow) :
  forall acc ts,
    for_each (fun acc t => t' <- attach_name db t ;; Ok (acc ++ [t'])) rows acc = Ok ts ->
    exists ts', ts = acc ++ ts' /\
                Forall2 (fun r t => attach_name db r = Ok t) rows ts'.
Proof.
  induction rows as [|r rows IH]; intros acc ts; cbn [for_each].
  - intro H. injection H as <-. exists []. split; [now rewrite app_nil_r | constructor].
  - destruct (attach_name db r) as [t|] eqn:E; [|discriminate]. cbn [bind].
    intro H. apply IH in H as (ts' & -> & HF).
    exists (t :: ts'). split; [now rewrite <- app_assoc|]. now constructor.
Qed.

Lemma overview_entry_attached (db : option Database) (ov : Overview) (t : TopStudent) :
  overall_overview db = Ok ov -> In t (top_students ov) ->
  exists r, attach_name db r = Ok t.
Proof.
  unfold overall_overview.
  destruct (get_documents_assessment db None) as [docs|]; [|discriminate]. cbn [bind].
  destruct (compute_stats docs) as [st|]; [|discriminate]. cbn [bind].
  intro H. injection H as <-. cbn [top_students].
  destruct (top_students_try db) as [ts|e] eqn:E; [|intros []].
  unfold top_students_try in E.
  destruct (aggregate db) as [rows|]; [|discriminate E]. cbn [bind] in E.
  apply for_each_attach_each in E as (ts' & -> & HF). cbn [app].
  intro Ht. induction HF as [|r t' rows ts' Hr _ IH]; [destruct Ht|].
  destruct Ht as [<- | Ht]; [now exists r | now apply IH].
Qed.

Lemma bson_ObjectId_hex_digits_24 (sid : string) :
  hex_digits_24 sid -> exists v, fromhex sid 0%N = Some v /\ bson_ObjectId (Some sid) = Ok (Oid v).
Proof.
  intros [Hlen Hhex]. unfold bson_ObjectId. rewrite Hlen. cbn [Nat.eqb].
  destruct (fromhex sid 0%N) as [v|]; [|congruence]. now exists v.
Qed.

(** X13.  For an entry of the leaderboard whose [student_id] is 24
    hexadecimal digits: a name shown on it is the name of a stored student
    whose identifier is the value of those digits, and when no stored
    student has that identifier the entry shows no name. *)
Theorem leaderboard_names_are_of_stored_students (d : Database) (ov : Overview)
  (t : TopStudent) (sid : string) :
  overall_overview (Some d) = Ok ov ->
  In t (top_students ov) ->
  top_student_id t = Some sid ->
  hex_digits_24 sid ->
  exists v,
    fromhex sid 0%N = Some v /\
    (forall nm, student_name t = Some nm ->
       exists s, In s (student d) /\ student_doc_name s = Some nm /\
                 student_oid s = Oid v) /\
    ((forall s, In s (student d) -> student_oid s <> Oid v) -> student_name t = None).
Proof.
  intros H Ht Hid Hhex.
  destruct (overview_entry_attached (Some d) ov t H Ht) as (r & Hr).
  destruct (attach_name_name (Some d) r t Hr) as (d' & oid & Ed & Hoid & Hrid & Hname).
  injection Ed as <-.
  destruct (bson_ObjectId_hex_digits_24 sid Hhex) as (v & Hv & Hb).
  rewrite <- Hrid, Hid, Hb in Hoid. injection Hoid as <-.
  exists v. split; [exact Hv|]. rewrite Hname. split.
  - intros nm Hnm.
    destruct (find _ (student d)) as [s|] eqn:F; [|discriminate].
    apply find_some in F as [Hin Heq]. exists s. auto using oid_eqb_eq.
  - intro Hnone.
    destruct (find _ (student d)) as [s|] eqn:F; [|reflexivity].
    apply find_some in F as [Hin Heq]. apply oid_eqb_eq in Heq.
    exfalso. exact (Hnone s Hin Heq).
Qed.

(** ** The string form of an identifier is read back *)

Lemma hex_digit_hex_char (d : N) : (d < 16)%N -> hex_digit (hex_char d) = Some d.
Proof.
  intro H. rewrite <- (N2Nat.id d) in *. set (k := N.to_nat d) in *.
  assert (Hk : (k < 16)%nat) by lia. clearbody k. clear H.
  do 16 (destruct k as [|k]; [reflexivity|]). lia.
Qed.

Lemma length_hex_digits (n : nat) :
  forall v acc, String.length (hex_digits n v acc) = (n + String.length acc)%nat.
Proof.
  induction n as [|n IH]; intros v acc; cbn [hex_digits]; [reflexivity|].
  rewrite IH. cbn [String.length]. lia.
Qed.

Lemma fromhex_hex_digits (n : nat) :
  forall v acc a,
    fromhex (hex_digits n v acc) a
    = fromhex acc (a * 16 ^ N.of_nat n + v mod 16 ^ N.of_nat n)%N.
Proof.
  induction n as [|n IH]; intros v acc a.
  - cbn [hex_digits]. change (16 ^ N.of_nat 0)%N with 1%N.
    rewrite N.mod_1_r. f_equal. lia.
  - cbn [hex_digits]. rewrite IH. cbn [fromhex].
    rewrite hex_digit_hex_char by (apply N.mod_lt; discriminate).
    f_equal. rewrite Nat2N.inj_succ, N.pow_succ_r'.
    rewrite (N.Div0.mod_mul_r v 16). lia.
Qed.

Lemma bson_ObjectId_oid_str (n : N) :
  (n < 16 ^ 24)%N -> bson_ObjectId (Some (oid_str n)) = Ok (Oid n).
Proof.
  intro H. unfold bson_ObjectId, oid_str.
  rewrite length_hex_digits. cbn [String.length Nat.add Nat.eqb].
  rewrite fromhex_hex_digits. cbn [fromhex].
  change (N.of_nat 24) with 24%N. rewrite N.mod_small by exact H.
  reflexivity.
Qed.

Lemma find_student_by_oid (d : Database) (s : StudentDoc) (n : N) :
  In s (student d) -> student_oid s = Oid n ->
  exists s', find (fun x => oid_eqb (student_oid x) (Oid n)) (student d) = Some s'.
Proof.
  intros Hin Hs.
  destruct (find (fun x => oid_eqb (student_oid x) (Oid n)) (student d)) as [s'|] eqn:F;
    [now exists s'|].
  apply (find_none _ _ F) in Hin. rewrite Hs in Hin. cbn in Hin.
  now rewrite N.eqb_refl in Hin.
Qed.

(** X14.  A request whose [student_id] is the 24-digit hexadecimal form of
    the identifier of a stored student is accepted when the store works: an
    identifier is returned and the record is added to the assessments. *)
Theorem assessment_for_stored_student_is_accepted (d : Database)
  (a : Schemas.Assessment) (s : StudentDoc) (n : N) :
  In s (student d) ->
  student_oid s = Oid n ->
  (n < 16 ^ 24)%N ->
  Schemas.student_id a = oid_str n ->
  (forall op, fails d op = false) ->
  exists id d',
    create_assessment (Some d) a = (Ok id, Some d') /\
    assessment d' = assessment d ++ [assessment_doc a].
Proof.
  intros Hin Hs Hn Hid Hup.
  destruct (find_student_by_oid d s n Hin Hs) as [s' F].
  unfold create_assessment, to_object_id.
  rewrite Hid, (bson_ObjectId_oid_str n Hn). cbn [bind].
  unfold find_one_student, on_collection. rewrite Hup, F.
  unfold create_document_assessment. rewrite Hup.
  do 2 eexists. split; reflexivity.
Qed.

(** ** Stored records stay within the schema's ranges *)




(** ** Bounds of the leaderboard averages *)




(** ** The further properties at concrete inputs *)

Ltac q_order := unfold Qle, Qlt; cbn; lia.
Tactic Notation "for_all" tactic3(tac) :=
  repeat (apply Forall_cons; [tac|]); apply Forall_nil.


Lemma single_subject_report_witness :
  exists st,
    compute_stats [ex_math50; ex_math80] = Ok st /\
    per_subject_average st = [("Math", overall_average st)] /\
    best_subject st = Some "Math" /\ worst_subject st = Some "Math".
Proof.
  eexists. split; [vm_compute; reflexivity|].
  apply (single_subject_report [ex_math50; ex_math80] _ "Math").
  - discriminate.
  - for_all reflexivity.
  - vm_compute. reflexivity.
Defined.

Lemma subjects_in_order_of_first_appearance_witness :
  exists st,
    compute_stats [ex_sci100; ex_math50; ex_sci100; ex_math80] = Ok st /\
    keys (per_subject_average st) = ["Science"; "Math"].
Proof.
  eexists. split; [vm_compute; reflexivity|].
  apply (subjects_in_order_of_first_appearance
           [ex_sci100; ex_math50; ex_sci100; ex_math80]).
  vm_compute. reflexivity.
Defined.

Lemma percentage_formulas_agree_witness :
  exists p, percentage ex_math50 = Ok p /\ add_fields_pct ex_math50 = Ok (Some p).
Proof.
  apply (proj1 (percentage_formulas_agree ex_math50 50 eq_refl)). q_order.
Defined.

Lemma stats_without_assessments_are_empty_witness :
  exists st,
    get_student_stats (Some ex_db) "nobody" = Ok st /\
    assessments_count st = 0%Z /\ overall_average st == 0 /\
    per_subject_average st = [] /\
    best_subject st = None /\ worst_subject st = None.
Proof.
  apply (stats_without_assessments_are_empty ex_db "nobody").
  - reflexivity.
  - intros a Ha. cbn in Ha.
    repeat (destruct Ha as [<- | Ha]; [discriminate|]). destruct Ha.
Defined.

Lemma lookup_failure_is_not_found_witness :
  resolves (Some ex_db_no_find) (hex24 3)
  /\ create_assessment (Some ex_db_no_find) (mk_request (hex24 3))
     = (Raise (HTTPException 404 "Student not found"), Some ex_db_no_find).
Proof.
  split.
  - exists ex_db_no_find, (mk_student 3 "Cy"), (Oid 3).
    split; [reflexivity|]. split; [cbn; tauto|].
    split; [vm_compute; reflexivity | reflexivity].
  - apply (lookup_failure_is_not_found (Some ex_db_no_find) (mk_request (hex24 3))).
    right. exists ex_db_no_find, (Oid 3).
    repeat split; vm_compute; reflexivity.
Defined.

Lemma created_assessment_is_counted_witness :
  exists st st',
    get_student_stats (Some ex_db) (hex24 3) = Ok st /\
    get_student_stats (snd (create_assessment (Some ex_db) (mk_request (hex24 3))))
                      (hex24 3) = Ok st' /\
    assessments_count st' = (assessments_count st + 1)%Z.
Proof.
  refine (proj1 (created_assessment_is_counted ex_db (mk_request (hex24 3))
                   (oid_str 100) _ _ _)).
  - vm_compute. reflexivity.
  - reflexivity.
Defined.

Lemma leaderboard_lists_each_student_once_witness :
  exists ov,
    overall_overview (Some ex_db) = Ok ov /\
    NoDup (map top_student_id (top_students ov)) /\
    List.length (top_students ov) = 5%nat.
Proof.
  eexists. split; [vm_compute; reflexivity|]. split; [|reflexivity].
  refine (proj1 (leaderboard_lists_each_student_once (Some ex_db) _ _)).
  vm_compute. reflexivity.
Defined.

Lemma unlisted_students_are_not_above_witness :
  exists ov,
    overall_overview (Some ex_db) = Ok ov /\
    forall t, In t (top_students ov) ->
      avg_leb (mongo_avg (leaderboard_group (assessment ex_db) (Some (hex24 1))))
              (top_avgPct t) = true.
Proof.
  eexists. split; [vm_compute; reflexivity|]. intros t Ht.
  refine (unlisted_students_are_not_above ex_db _ _ t (mk_doc (hex24 1) "Math" 10 100)
            Ht _ _).
  - vm_compute. reflexivity.
  - left. reflexivity.
  - intros u Hu. cbn [In] in Hu.
    repeat (destruct Hu as [<- | Hu]; [vm_compute; discriminate|]). destruct Hu.
Defined.

Lemma leaderboard_names_are_of_stored_students_witness :
  overall_overview (Some ex_db) = Ok ex_overview /\
  hd_error (top_students ex_overview) = Some ex_first_entry /\
  student_name ex_first_entry = Some "Dee" /\
  exists s, In s (student ex_db) /\ student_doc_name s = Some "Dee" /\
            student_oid s = Oid 4.
Proof.
  assert (Hov : overall_overview (Some ex_db) = Ok ex_overview)
    by (vm_compute; reflexivity).
  split; [exact Hov|]. split; [reflexivity|]. split; [reflexivity|].
  assert (Hin : In ex_first_entry (top_students ex_overview))
    by (left; reflexivity).
  assert (Hid : top_student_id ex_first_entry = Some (hex24 4))
    by (vm_compute; reflexivity).
  assert (Hhex : hex_digits_24 (hex24 4))
    by (split; [vm_compute; reflexivity | vm_compute; discriminate]).
  destruct (leaderboard_names_are_of_stored_students ex_db ex_overview ex_first_entry
              (hex24 4) Hov Hin Hid Hhex) as (v & Hv & Hname & _).
  vm_compute in Hv. injection Hv as <-. exact (Hname "Dee" eq_refl).
Defined.

Lemma assessment_for_stored_student_is_accepted_witness :
  exists id d',
    create_assessment (Some ex_db) (mk_request (hex24 3)) = (Ok id, Some d') /\
    assessment d' = assessment ex_db ++ [assessment_doc (mk_request (hex24 3))].
Proof.
  apply (assessment_for_stored_student_is_accepted ex_db (mk_request (hex24 3))
           (mk_student 3 "Cy") 3).
  - cbn. tauto.
  - reflexivity.
  - reflexivity.
  - reflexivity.
  - intro op. reflexivity.
Defined.



(** With equal means the first subject met is both the best and the worst. *)
Example tie_goes_to_first_subject :
  exists st, compute_stats ex_tie = Ok st /\
             best_subject st = Some "Science" /\ worst_subject st = Some "Science".
Proof.
  eexists. split; [vm_compute; reflexivity | split; reflexivity].
Qed.

(** A negative total: [compute_stats] divides by it, the pipeline by 1. *)
Example negative_total_differs :
  percentage (mk_doc "s1" "Math" 5 (-10)) = Ok (-500 # 10)
  /\ add_fields_pct (mk_doc "s1" "Math" 5 (-10)) = Ok (Some (500 # 1)).
Proof. split; reflexivity. Qed.

(** * [compute_stats] on binary64 floats *)

(** ** The loop and the result *)

Lemma b64_py_or_nonzero (x : float) : (Binary64.py_or x 1 =? 0)%float = false.
Proof.
  unfold Binary64.py_or. destruct (x =? 0)%float eqn:E; [reflexivity | exact E].
Qed.

Lemma b64_py_or_effective_total (a : Binary64.AssessmentDoc) :
  Binary64.py_or (get (Binary64.doc_total a) 0%float) 1
  = Binary64.effective_total a.
Proof.
  unfold Binary64.effective_total, Binary64.py_or, get.
  destruct (Binary64.doc_total a); reflexivity.
Qed.

Lemma b64_percentage_ok (a : Binary64.AssessmentDoc) :
  Binary64.percentage a = Ok (Binary64.pct_of a).
Proof.
  unfold Binary64.percentage, Binary64.py_truediv.
  rewrite b64_py_or_nonzero. cbn [bind]. rewrite b64_py_or_effective_total.
  unfold Binary64.pct_of, Binary64.score_of, get.
  destruct (Binary64.doc_score a); reflexivity.
Qed.

Lemma b64_stats_loop_ok (ss : dict string (list float)) (os : list float)
  (a : Binary64.AssessmentDoc) :
  Binary64.stats_loop (ss, os) a
  = Ok (setdefault_append ss (Binary64.subject_of a) (Binary64.pct_of a),
        os ++ [Binary64.pct_of a]).
Proof.
  unfold Binary64.stats_loop. rewrite b64_percentage_ok. cbn [bind].
  unfold Binary64.subject_of, get. destruct (Binary64.doc_subject a); reflexivity.
Qed.

Lemma b64_for_each_stats_loop (l : list Binary64.AssessmentDoc) :
  forall ss os,
    for_each Binary64.stats_loop l (ss, os)
    = Ok (Binary64.grouped_from ss l, os ++ map Binary64.pct_of l).
Proof.
  induction l as [|a l IH]; intros ss os; cbn [for_each map].
  - now rewrite app_nil_r.
  - rewrite b64_stats_loop_ok. cbn [bind]. rewrite IH.
    unfold Binary64.grouped_from. cbn [fold_left]. now rewrite <- app_assoc.
Qed.

Lemma b64_average_ok (c : bool) (v : list float) :
  v <> [] -> Binary64.average c v = Ok (Binary64.mean c v).
Proof.
  intro H. unfold Binary64.average, Binary64.py_truediv_int.
  destruct v as [|x v]; [congruence|]. reflexivity.
Qed.

Lemma b64_dict_comprehension_average (c : bool) (d : dict string (list float)) :
  Forall (fun kv => snd kv <> []) d ->
  dict_comprehension (Binary64.average c) d
  = Ok (map (fun kv => (fst kv, Binary64.mean c (snd kv))) d).
Proof.
  induction d as [|[k v] d IH]; intro H; [reflexivity|].
  inversion H as [|? ? Hv Hd]; subst. cbn [dict_comprehension].
  rewrite (b64_average_ok c v Hv). cbn [bind]. rewrite (IH Hd). reflexivity.
Qed.

Lemma b64_grouped_nonempty (l : list Binary64.AssessmentDoc) :
  forall d, Forall (fun kv => snd kv <> []) d ->
            Forall (fun kv => snd kv <> []) (Binary64.grouped_from d l).
Proof.
  induction l as [|a l IH]; intros d H; [exact H|].
  apply IH, setdefault_append_nonempty, H.
Qed.

Lemma b64_grouped_from_truthy (l : list Binary64.AssessmentDoc) :
  forall d, truthy d = true -> truthy (Binary64.grouped_from d l) = true.
Proof.
  induction l as [|a l IH]; intros d H; [exact H|].
  apply IH, setdefault_append_truthy.
Qed.

Lemma b64_grouped_truthy (l : list Binary64.AssessmentDoc) :
  truthy (Binary64.grouped_from [] l) = truthy l.
Proof.
  destruct l as [|a l]; [reflexivity|].
  unfold Binary64.grouped_from. cbn [fold_left truthy].
  apply b64_grouped_from_truthy, setdefault_append_truthy.
Qed.

Section B64Extremes.
Context {A : Type} (key : A -> option float).

Lemma b64_max_loop_ok (rest : list A) :
  forall (m : A) (mv : float),
    (forall x, In x rest -> exists q, key x = Some q) ->
    exists r, Binary64.max_loop key m (Some mv) rest = Ok r.
Proof.
  induction rest as [|item rest IH]; intros m mv Hall; [now exists m|].
  destruct (Hall item (or_introl eq_refl)) as [q Hq].
  cbn [Binary64.max_loop]. rewrite Hq. cbn [Binary64.py_lt bind].
  destruct (mv <? q)%float; apply IH; intros x Hx; apply Hall; now right.
Qed.

Lemma b64_min_loop_ok (rest : list A) :
  forall (m : A) (mv : float),
    (forall x, In x rest -> exists q, key x = Some q) ->
    exists r, Binary64.min_loop key m (Some mv) rest = Ok r.
Proof.
  induction rest as [|item rest IH]; intros m mv Hall; [now exists m|].
  destruct (Hall item (or_introl eq_refl)) as [q Hq].
  cbn [Binary64.min_loop]. rewrite Hq. cbn [Binary64.py_lt bind].
  destruct (q <? mv)%float; apply IH; intros x Hx; apply Hall; now right.
Qed.
End B64Extremes.

Lemma b64_py_max_ok (d : dict string float) :
  truthy d = true -> exists b, Binary64.py_max (dict_get d) (keys d) = Ok b.
Proof.
  destruct d as [|[k v] d]; [discriminate|]. intros _.
  cbn [Binary64.py_max keys map fst].
  assert (Hk : dict_get ((k, v) :: d) k = Some v)
    by (cbn [dict_get]; now rewrite key_eqb_refl).
  rewrite Hk. apply b64_max_loop_ok.
  intros x Hx. apply dict_get_keys. now right.
Qed.

Lemma b64_py_min_ok (d : dict string float) :
  truthy d = true -> exists b, Binary64.py_min (dict_get d) (keys d) = Ok b.
Proof.
  destruct d as [|[k v] d]; [discriminate|]. intros _.
  cbn [Binary64.py_min keys map fst].
  assert (Hk : dict_get ((k, v) :: d) k = Some v)
    by (cbn [dict_get]; now rewrite key_eqb_refl).
  rewrite Hk. apply b64_min_loop_ok.
  intros x Hx. apply dict_get_keys. now right.
Qed.

Lemma b64_compute_stats_ok (c : bool) (l : list Binary64.AssessmentDoc) :
  exists best worst,
    Binary64.compute_stats c l
    = Ok {| Binary64.overall_average := Binary64.py_round2 (Binary64.overall_of c l);
            Binary64.per_subject_average :=
              map (fun kv => (fst kv, Binary64.py_round2 (snd kv)))
                  (Binary64.per_subject_of c l);
            Binary64.best_subject := best;
            Binary64.worst_subject := worst;
            Binary64.assessments_count := Z.of_nat (List.length l) |}.
Proof.
  unfold Binary64.compute_stats. rewrite b64_for_each_stats_loop. cbn [bind app].
  rewrite b64_grouped_truthy.
  destruct l as [|a l].
  - exists None, None. reflexivity.
  - set (l' := a :: l).
    assert (Ht : truthy (Binary64.per_subject_of c l') = true).
    { unfold Binary64.per_subject_of. pose proof (b64_grouped_truthy l') as G.
      destruct (Binary64.grouped_from [] l'); [discriminate G | reflexivity]. }
    destruct (b64_py_max_ok _ Ht) as (b & Hb).
    destruct (b64_py_min_ok _ Ht) as (w & Hw).
    change (truthy l') with true. cbv iota.
    rewrite b64_dict_comprehension_average
      by (apply b64_grouped_nonempty; constructor).
    fold (Binary64.per_subject_of c l'). cbn [bind].
    change (truthy (map Binary64.pct_of l')) with true. cbv iota.
    rewrite b64_average_ok by discriminate. cbn [bind].
    rewrite Ht, Hb. cbn [bind]. rewrite Hw. cbn [bind].
    exists (Some b), (Some w). reflexivity.
Qed.

Lemma b64_dict_get_grouped_from (l : list Binary64.AssessmentDoc)
  (d : dict string (list float)) (k : string) :
  dict_get (Binary64.grouped_from d l) k
  = match dict_get d k, Binary64.group_of l k with
    | None, [] => None
    | None, g => Some g
    | Some v, g => Some (v ++ g)
    end.
Proof.
  exact (dict_get_fold_setdefault_append Binary64.subject_of Binary64.pct_of l d k).
Qed.

(** ** Claims on the reported averages *)

(** C2.  [overall_average] is the mean of the percentages of all the
    records, the float sum over the count, rounded to 2 decimals, and 0.0 on
    the empty list.  On the record with score 23 and total 160 it is 14.37
    (the mean is 14.374999999999998); on Math 50, Math 80, Science 100 it is
    76.67, where the mean of the two per-subject means would be 82.5. *)
Theorem overall_average_is_rounded_mean_of_all :
  (forall c l, exists st,
      Binary64.compute_stats c l = Ok st /\
      match l with
      | [] => Binary64.overall_average st = 0%float
      | _ :: _ =>
          Binary64.overall_average st
          = Binary64.py_round2 (Binary64.mean c (map Binary64.pct_of l))
      end)
  /\ (forall c, exists st,
         Binary64.compute_stats c [Binary64.ex_23_of_160] = Ok st /\
         Binary64.mean c (map Binary64.pct_of [Binary64.ex_23_of_160])
         = 14.374999999999998%float /\
         Binary64.overall_average st = 14.37%float)
  /\ (forall c, exists st,
         Binary64.compute_stats c
           [Binary64.ex_math50; Binary64.ex_math80; Binary64.ex_sci100] = Ok st /\
         Binary64.overall_average st = 76.67%float /\
         Binary64.per_subject_average st
         = [("Math", 65%float); ("Science", 100%float)] /\
         Binary64.py_round2 (Binary64.mean c [65; 100]%float) = 82.5%float).
Proof.
  split; [|split].
  - intros c l. destruct (b64_compute_stats_ok c l) as (b & w & H).
    eexists. split; [exact H|]. destruct l; reflexivity.
  - intro c. destruct c; eexists; (split; [vm_compute; reflexivity|]);
      split; vm_compute; reflexivity.
  - intro c. destruct c; eexists; (split; [vm_compute; reflexivity|]);
      repeat split; vm_compute; reflexivity.
Qed.

(** C3.  The percentages are grouped by subject, an absent subject counting
    as ["Unknown"]; [per_subject_average] has one entry per subject that
    occurs and maps it to the mean of the percentages of its group, the
    float sum over the count, rounded to 2 decimals.  A record without
    subject scoring 1 of 3 is reported under "Unknown" with 33.33; Math 23 of
    160, Math 50 of 100, Science 100 of 100 gives Math 32.19 and Science
    100.0. *)
Theorem per_subject_average_is_rounded_group_mean :
  (forall c l, exists st,
      Binary64.compute_stats c l = Ok st /\
      NoDup (keys (Binary64.per_subject_average st)) /\
      forall s,
        dict_get (Binary64.per_subject_average st) s
        = match Binary64.group_of l s with
          | [] => None
          | g => Some (Binary64.py_round2 (Binary64.mean c g))
          end)
  /\ (forall c, exists st,
         Binary64.compute_stats c [Binary64.ex_no_subject] = Ok st /\
         Binary64.per_subject_average st = [("Unknown", 33.33%float)])
  /\ (forall c, exists st,
         Binary64.compute_stats c
           [Binary64.ex_23_of_160; Binary64.ex_sci100; Binary64.ex_math50] = Ok st /\
         Binary64.group_of [Binary64.ex_23_of_160; Binary64.ex_sci100; Binary64.ex_math50]
                           "Math"
         = [14.374999999999998; 50]%float /\
         Binary64.per_subject_average st
         = [("Math", 32.19%float); ("Science", 100%float)]).
Proof.
  split; [|split].
  - intros c l. destruct (b64_compute_stats_ok c l) as (b & w & H).
    eexists. split; [exact H|]. cbn [Binary64.per_subject_average]. split.
    + unfold Binary64.per_subject_of. rewrite !keys_map_values.
      exact (fold_setdefault_append_NoDup Binary64.subject_of Binary64.pct_of l []
               (NoDup_nil _)).
    + intro s. unfold Binary64.per_subject_of.
      rewrite !dict_get_map_values, b64_dict_get_grouped_from. cbn [dict_get].
      destruct (Binary64.group_of l s); reflexivity.
  - intro c. destruct c; eexists; split; vm_compute; reflexivity.
  - intro c. destruct c; eexists; (split; [vm_compute; reflexivity|]);
      split; vm_compute; reflexivity.
Qed.

(** ** The order of binary64 floats *)

Lemma Prim2SF_not_nan (f : float) : is_nan f = false -> Prim2SF f <> S754_nan.
Proof.
  intro H. unfold Prim2SF. rewrite H.
  destruct (is_zero f); [discriminate|].
  destruct (is_infinity f); [discriminate|].
  destruct (Z.frexp f) as [r e]. destruct (shr_fexp _ _ _ _ _) as [shr e'].
  destruct (shr_m shr); discriminate.
Qed.

Ltac sf_order :=
  repeat match goal with s : bool |- _ => destruct s end;
  cbn; try discriminate; try reflexivity; try congruence;
  change (PosDef.Pos.compare_cont Eq) with Pos.compare;
  repeat match goal with
         | |- context [(?x ?= ?y)%Z] => destruct (Z.compare_spec x y)
         | |- context [Pos.compare ?x ?y] => destruct (Pos.compare_spec x y)
         end; cbn; try discriminate; try reflexivity; try congruence;
  intros; exfalso; lia.

Lemma SFcompare_lt_trans (a b c : spec_float) :
  SFcompare a b = Some Lt -> SFcompare b c = Some Lt -> SFcompare a c = Some Lt.
Proof.
  destruct a as [sa|sa| |sa ma ea], b as [sb|sb| |sb mb eb], c as [sc|sc| |sc mc ec];
    cbn; try discriminate; try reflexivity; sf_order.
Qed.

Lemma SFcompare_le_lt_trans (a b c : spec_float) :
  b <> S754_nan ->
  SFcompare a b <> Some Lt -> SFcompare a c = Some Lt -> SFcompare b c = Some Lt.
Proof.
  destruct a as [sa|sa| |sa ma ea], b as [sb|sb| |sb mb eb], c as [sc|sc| |sc mc ec];
    cbn; try discriminate; try reflexivity; try congruence; sf_order.
Qed.

Lemma SFcompare_lt_le_trans (a b c : spec_float) :
  b <> S754_nan ->
  SFcompare b a <> Some Lt -> SFcompare c a = Some Lt -> SFcompare c b = Some Lt.
Proof.
  destruct a as [sa|sa| |sa ma ea], b as [sb|sb| |sb mb eb], c as [sc|sc| |sc mc ec];
    cbn; try discriminate; try reflexivity; try congruence; sf_order.
Qed.

Lemma ltb_compare (a b : float) :
  (a <? b)%float = true <-> SFcompare (Prim2SF a) (Prim2SF b) = Some Lt.
Proof.
  rewrite ltb_spec. unfold SFltb.
  destruct (SFcompare (Prim2SF a) (Prim2SF b)) as [[| |]|]; split; congruence.
Qed.

Lemma ltb_trans (a b c : float) :
  (a <? b)%float = true -> (b <? c)%float = true -> (a <? c)%float = true.
Proof.
  rewrite !ltb_compare. apply SFcompare_lt_trans.
Qed.

(** [b <= a < c] gives [b < c] when [b] is a number. *)
Lemma not_ltb_ltb_trans (a b c : float) :
  is_nan b = false ->
  (a <? b)%float = false -> (a <? c)%float = true -> (b <? c)%float = true.
Proof.
  intros Hb Hab. rewrite !ltb_compare. apply SFcompare_le_lt_trans.
  - now apply Prim2SF_not_nan.
  - rewrite <- ltb_compare. congruence.
Qed.

(** [c < a <= b] gives [c < b] when [b] is a number. *)
Lemma ltb_not_ltb_trans (a b c : float) :
  is_nan b = false ->
  (b <? a)%float = false -> (c <? a)%float = true -> (c <? b)%float = true.
Proof.
  intros Hb Hba. rewrite !ltb_compare. apply SFcompare_lt_le_trans.
  - now apply Prim2SF_not_nan.
  - rewrite <- ltb_compare. congruence.
Qed.

(** ** Which of several equal extremes [max] and [min] return *)

Section B64FirstExtreme.
Context {A : Type} (key : A -> option float).

Lemma b64_max_loop_first (rest : list A) :
  forall (pre : list A) (m : A) (mv : float) (mid : list A),
    key m = Some mv ->
    (forall x, In x rest -> exists q, key x = Some q) ->
    (forall x q, In x mid -> key x = Some q -> is_nan q = false) ->
    (forall x q, In x rest -> key x = Some q -> is_nan q = false) ->
    (forall x q, In x pre -> key x = Some q -> (q <? mv)%float = true) ->
    (forall x q, In x mid -> key x = Some q -> (mv <? q)%float = false) ->
    exists r rv pre' post',
      Binary64.max_loop key m (Some mv) rest = Ok r /\ key r = Some rv /\
      pre ++ m :: mid ++ rest = pre' ++ r :: post' /\
      (forall x q, In x pre' -> key x = Some q -> (q <? rv)%float = true) /\
      (forall x q, In x post' -> key x = Some q -> (rv <? q)%float = false).
Proof.
  induction rest as [|item rest IH]; intros pre m mv mid Hm Hall Hnm Hnr Hpre Hmid.
  - exists m, mv, pre, mid. rewrite app_nil_r. auto.
  - destruct (Hall item (or_introl eq_refl)) as [q Hq].
    assert (Hrest : forall x, In x rest -> exists q, key x = Some q)
      by (intros x Hx; apply Hall; now right).
    assert (Hnr' : forall x q, In x rest -> key x = Some q -> is_nan q = false)
      by (intros x q' Hx; apply Hnr; now right).
    cbn [Binary64.max_loop]. rewrite Hq. cbn [Binary64.py_lt bind].
    destruct (mv <? q)%float eqn:E.
    + destruct (IH (pre ++ m :: mid) item q [] Hq Hrest)
        as (r & rv & pre' & post' & Hr & Hk & Heq & H1 & H2); auto.
      * intros x q' [].
      * intros x q' Hx Hq'. apply in_app_or in Hx as [Hx | [<- | Hx]].
        -- eapply ltb_trans; [eapply Hpre; eassumption | exact E].
        -- congruence.
        -- eapply not_ltb_ltb_trans; [| eapply Hmid; eassumption | exact E].
           eapply Hnm; eassumption.
      * intros x q' [].
      * exists r, rv, pre', post'. repeat split; auto.
        rewrite <- Heq, <- app_assoc. reflexivity.
    + destruct (IH pre m mv (mid ++ [item]) Hm Hrest)
        as (r & rv & pre' & post' & Hr & Hk & Heq & H1 & H2); auto.
      * intros x q' Hx Hq'. apply in_app_or in Hx as [Hx | [<- | []]].
        -- eapply Hnm; eassumption.
        -- eapply Hnr; [now left | eassumption].
      * intros x q' Hx Hq'. apply in_app_or in Hx as [Hx | [<- | []]].
        -- eapply Hmid; eassumption.
        -- congruence.
      * exists r, rv, pre', post'. repeat split; auto.
        rewrite <- Heq, <- app_assoc. reflexivity.
Qed.

Lemma b64_min_loop_first (rest : list A) :
  forall (pre : list A) (m : A) (mv : float) (mid : list A),
    key m = Some mv ->
    (forall x, In x rest -> exists q, key x = Some q) ->
    (forall x q, In x mid -> key x = Some q -> is_nan q = false) ->
    (forall x q, In x rest -> key x = Some q -> is_nan q = false) ->
    (forall x q, In x pre -> key x = Some q -> (mv <? q)%float = true) ->
    (forall x q, In x mid -> key x = Some q -> (q <? mv)%float = false) ->
    exists r rv pre' post',
      Binary64.min_loop key m (Some mv) rest = Ok r /\ key r = Some rv /\
      pre ++ m :: mid ++ rest = pre' ++ r :: post' /\
      (forall x q, In x pre' -> key x = Some q -> (rv <? q)%float = true) /\
      (forall x q, In x post' -> key x = Some q -> (q <? rv)%float = false).
Proof.
  induction rest as [|item rest IH]; intros pre m mv mid Hm Hall Hnm Hnr Hpre Hmid.
  - exists m, mv, pre, mid. rewrite app_nil_r. auto.
  - destruct (Hall item (or_introl eq_refl)) as [q Hq].
    assert (Hrest : forall x, In x rest -> exists q, key x = Some q)
      by (intros x Hx; apply Hall; now right).
    assert (Hnr' : forall x q, In x rest -> key x = Some q -> is_nan q = false)
      by (intros x q' Hx; apply Hnr; now right).
    cbn [Binary64.min_loop]. rewrite Hq. cbn [Binary64.py_lt bind].
    destruct (q <? mv)%float eqn:E.
    + destruct (IH (pre ++ m :: mid) item q [] Hq Hrest)
        as (r & rv & pre' & post' & Hr & Hk & Heq & H1 & H2); auto.
      * intros x q' [].
      * intros x q' Hx Hq'. apply in_app_or in Hx as [Hx | [<- | Hx]].
        -- eapply ltb_trans; [exact E | eapply Hpre; eassumption].
        -- congruence.
        -- eapply ltb_not_ltb_trans; [| eapply Hmid; eassumption | exact E].
           eapply Hnm; eassumption.
      * intros x q' [].
      * exists r, rv, pre', post'. repeat split; auto.
        rewrite <- Heq, <- app_assoc. reflexivity.
    + destruct (IH pre m mv (mid ++ [item]) Hm Hrest)
        as (r & rv & pre' & post' & Hr & Hk & Heq & H1 & H2); auto.
      * intros x q' Hx Hq'. apply in_app_or in Hx as [Hx | [<- | []]].
        -- eapply Hnm; eassumption.
        -- eapply Hnr; [now left | eassumption].
      * intros x q' Hx Hq'. apply in_app_or in Hx as [Hx | [<- | []]].
        -- eapply Hmid; eassumption.
        -- congruence.
      * exists r, rv, pre', post'. repeat split; auto.
        rewrite <- Heq, <- app_assoc. reflexivity.
Qed.
End B64FirstExtreme.

Lemma b64_compute_stats_extremes_run (c : bool) (l : list Binary64.AssessmentDoc)
  (st : Binary64.Stats) :
  Binary64.compute_stats c l = Ok st -> l <> [] ->
  exists b w,
    Binary64.py_max (dict_get (Binary64.per_subject_of c l))
                    (keys (Binary64.per_subject_of c l)) = Ok b /\
    Binary64.py_min (dict_get (Binary64.per_subject_of c l))
                    (keys (Binary64.per_subject_of c l)) = Ok w /\
    Binary64.best_subject st = Some b /\ Binary64.worst_subject st = Some w.
Proof.
  intros H Hne. destruct l as [|a l]; [congruence|]. clear Hne.
  set (l' := a :: l) in *.
  assert (Ht : truthy (Binary64.per_subject_of c l') = true).
  { unfold Binary64.per_subject_of. pose proof (b64_grouped_truthy l') as G.
    destruct (Binary64.grouped_from [] l'); [discriminate G | reflexivity]. }
  unfold Binary64.compute_stats in H. rewrite b64_for_each_stats_loop in H.
  cbn [bind app] in H. rewrite b64_grouped_truthy in H.
  change (truthy l') with true in H. cbv iota in H.
  rewrite b64_dict_comprehension_average in H
    by (apply b64_grouped_nonempty; constructor).
  fold (Binary64.per_subject_of c l') in H. cbn [bind] in H.
  change (truthy (map Binary64.pct_of l')) with true in H. cbv iota in H.
  rewrite b64_average_ok in H by discriminate. cbn [bind] in H. rewrite Ht in H.
  destruct (Binary64.py_max _ _) as [b|]; [|discriminate H]. cbn [bind] in H.
  destruct (Binary64.py_min _ _) as [w|]; [|discriminate H]. cbn [bind] in H.
  injection H as <-. exists b, w. auto.
Qed.

Lemma b64_keys_per_subject_of (c : bool) (l : list Binary64.AssessmentDoc) :
  keys (Binary64.per_subject_of c l) = first_occurrences (map Binary64.subject_of l).
Proof.
  unfold Binary64.per_subject_of. rewrite keys_map_values.
  exact (keys_grouping Binary64.subject_of Binary64.pct_of l).
Qed.

Lemma b64_per_subject_of_key (c : bool) (l : list Binary64.AssessmentDoc) (s : string) :
  In s (keys (Binary64.per_subject_of c l)) ->
  dict_get (Binary64.per_subject_of c l) s
  = Some (Binary64.mean c (Binary64.group_of l s)).
Proof.
  intro H. apply dict_get_keys in H as [v Hv].
  unfold Binary64.per_subject_of in *.
  rewrite dict_get_map_values, b64_dict_get_grouped_from in Hv |- *.
  cbn [dict_get] in Hv |- *.
  destruct (Binary64.group_of l s); [discriminate | reflexivity].
Qed.

(** X4.  Ties are broken by input order, on the means as the floats they
    are: when no per-subject mean is NaN, [best_subject] is the subject
    whose mean (before rounding) is strictly above the mean of every
    subject that first appears earlier, and no subject that first appears
    later has a mean above it; [worst_subject] is the same with the order
    reversed. *)
Theorem extremes_are_first_met_on_floats (c : bool) (l : list Binary64.AssessmentDoc)
  (st : Binary64.Stats) :
  Binary64.compute_stats c l = Ok st ->
  (forall s, In s (first_occurrences (map Binary64.subject_of l)) ->
             is_nan (Binary64.mean c (Binary64.group_of l s)) = false) ->
  (forall b, Binary64.best_subject st = Some b ->
     exists pre post,
       first_occurrences (map Binary64.subject_of l) = pre ++ b :: post /\
       (forall s, In s pre ->
          (Binary64.mean c (Binary64.group_of l s)
           <? Binary64.mean c (Binary64.group_of l b))%float = true) /\
       (forall s, In s post ->
          (Binary64.mean c (Binary64.group_of l b)
           <? Binary64.mean c (Binary64.group_of l s))%float = false))
  /\ (forall w, Binary64.worst_subject st = Some w ->
        exists pre post,
          first_occurrences (map Binary64.subject_of l) = pre ++ w :: post /\
          (forall s, In s pre ->
             (Binary64.mean c (Binary64.group_of l w)
              <? Binary64.mean c (Binary64.group_of l s))%float = true) /\
          (forall s, In s post ->
             (Binary64.mean c (Binary64.group_of l s)
              <? Binary64.mean c (Binary64.group_of l w))%float = false)).
Proof.
  intros H Hnan.
  destruct l as [|a l].
  { vm_compute in H. injection H as <-.
    split; intros x Hx; discriminate Hx. }
  set (l' := a :: l) in *.
  destruct (b64_compute_stats_extremes_run c l' st H) as (b & w & Hb & Hw & Eb & Ew);
    [discriminate|].
  rewrite <- (b64_keys_per_subject_of c) in *.
  set (P := Binary64.per_subject_of c l') in *.
  assert (HP : forall s, In s (keys P) ->
                         dict_get P s = Some (Binary64.mean c (Binary64.group_of l' s)))
    by (intro s; apply b64_per_subject_of_key).
  destruct (keys P) as [|k0 rest] eqn:EK; [discriminate Hb|].
  assert (Hk0 : dict_get P k0 = Some (Binary64.mean c (Binary64.group_of l' k0)))
    by (apply HP; now left).
  assert (Hall : forall x, In x rest -> exists q, dict_get P x = Some q)
    by (intros x Hx; eexists; apply HP; now right).
  assert (Hnr : forall x q, In x rest -> dict_get P x = Some q -> is_nan q = false).
  { intros x q Hx Hq. rewrite HP in Hq by now right. injection Hq as <-.
    apply Hnan. now right. }
  split.
  - intros b' Eb'. rewrite Eb in Eb'. injection Eb' as <-.
    destruct (b64_max_loop_first (dict_get P) rest [] k0 _ [] Hk0 Hall)
      as (r & rv & pre & post & Hr & Hk & Heq & H1 & H2); auto;
      try (intros ? ? []).
    cbn [Binary64.py_max] in Hb. rewrite Hk0 in Hb. rewrite Hr in Hb.
    injection Hb as ->.
    cbn [app] in Heq. exists pre, post. split; [exact Heq|].
    assert (Hin : forall s, In s (pre ++ b :: post) -> In s (k0 :: rest))
      by (intros s Hs; now rewrite Heq).
    assert (Erv : rv = Binary64.mean c (Binary64.group_of l' b)).
    { rewrite (HP b) in Hk; [congruence|]. apply Hin, in_elt. }
    subst rv. split; intros s Hs.
    + apply (H1 s); [exact Hs|]. apply HP, Hin, in_or_app. now left.
    + apply (H2 s); [exact Hs|]. apply HP, Hin, in_or_app. right. now right.
  - intros w' Ew'. rewrite Ew in Ew'. injection Ew' as <-.
    destruct (b64_min_loop_first (dict_get P) rest [] k0 _ [] Hk0 Hall)
      as (r & rv & pre & post & Hr & Hk & Heq & H1 & H2); auto;
      try (intros ? ? []).
    cbn [Binary64.py_min] in Hw. rewrite Hk0 in Hw. rewrite Hr in Hw.
    injection Hw as ->.
    cbn [app] in Heq. exists pre, post. split; [exact Heq|].
    assert (Hin : forall s, In s (pre ++ w :: post) -> In s (k0 :: rest))
      by (intros s Hs; now rewrite Heq).
    assert (Erv : rv = Binary64.mean c (Binary64.group_of l' w)).
    { rewrite (HP w) in Hk; [congruence|]. apply Hin, in_elt. }
    subst rv. split; intros s Hs.
    + apply (H1 s); [exact Hs|]. apply HP, Hin, in_or_app. now left.
    + apply (H2 s); [exact Hs|]. apply HP, Hin, in_or_app. right. now right.
Qed.

Lemma extremes_are_first_met_on_floats_witness :
  Binary64.compute_stats false Binary64.ex_near_tie
  = Ok {| Binary64.overall_average := 50%float;
          Binary64.per_subject_average := [("A", 50%float); ("B", 50%float)];
          Binary64.best_subject := Some "B";
          Binary64.worst_subject := Some "A";
          Binary64.assessments_count := 3 |} /\
  Binary64.mean false (Binary64.group_of Binary64.ex_near_tie "A")
  = 49.99999999999999%float /\
  exists pre post,
    first_occurrences (map Binary64.subject_of Binary64.ex_near_tie)
    = pre ++ "B" :: post /\
    (forall s, In s pre ->
       (Binary64.mean false (Binary64.group_of Binary64.ex_near_tie s)
        <? Binary64.mean false (Binary64.group_of Binary64.ex_near_tie "B"))%float
       = true) /\
    (forall s, In s post ->
       (Binary64.mean false (Binary64.group_of Binary64.ex_near_tie "B")
        <? Binary64.mean false (Binary64.group_of Binary64.ex_near_tie s))%float
       = false).
Proof.
  assert (H : Binary64.compute_stats false Binary64.ex_near_tie
              = Ok {| Binary64.overall_average := 50%float;
                      Binary64.per_subject_average := [("A", 50%float); ("B", 50%float)];
                      Binary64.best_subject := Some "B";
                      Binary64.worst_subject := Some "A";
                      Binary64.assessments_count := 3 |})
    by (vm_compute; reflexivity).
  split; [exact H|]. split; [vm_compute; reflexivity|].
  refine (proj1 (extremes_are_first_met_on_floats false Binary64.ex_near_tie _ H _)
                "B" eq_refl).
  intros s Hs. vm_compute in Hs.
  destruct Hs as [<- | [<- | []]]; vm_compute; reflexivity.
Defined.
